(** * LLM-APP: the two RAG notebooks

    A shallow embedding of [rag_arbitrary_sources.ipynb] and
    [rag_mlflow_documents.ipynb]: the documents and their metadata, the
    source extraction used by the retriever evaluation, the two pipeline
    graphs each notebook wires with [add_component] and [connect], and the
    data-flow run of the ingestion and the query pipelines. *)

From Stdlib Require Import QArith Ascii.
From stdpp Require Import gmap strings list fin_maps pretty.

Open Scope string_scope.

(** ** Python values, exceptions and results *)

(** The exceptions the notebooks raise themselves or let through. *)
Inductive Exception :=
| KeyError (msg : string)
| IndexError (msg : string)
| ValueError (msg : string)
| TypeError (msg : string)
| PipelineConnectError (msg : string)
| PipelineRuntimeError (msg : string)
| ServiceError (msg : string).

Inductive result (A : Type) :=
| Ok (a : A)
| Raise (e : Exception).
Arguments Ok {A} a.
Arguments Raise {A} e.

#[global] Instance result_ret : MRet result := fun _ a => Ok a.
#[global] Instance result_bind : MBind result := fun _ _ f r =>
  match r with
  | Ok a => f a
  | Raise e => Raise e
  end.

(** The values a metadata dictionary holds ([Dict[str, Any]], flat). *)
Inductive PyVal :=
| PyNone
| PyBool (b : bool)
| PyInt (z : Z)
| PyStr (s : string).

(** [key in d] and [d[key]] on a dictionary with string keys. *)
Definition py_in {V} (key : string) (d : gmap string V) : bool :=
  bool_decide (is_Some (d !! key)).

Definition py_getitem {V} (d : gmap string V) (key : string) : result V :=
  match d !! key with
  | Some v => Ok v
  | None => Raise (KeyError key)
  end.

(** [l[0]] on a list. *)
Definition py_first {A} (l : list A) : result A :=
  match l with
  | x :: _ => Ok x
  | [] => Raise (IndexError "list index out of range")
  end.

(** ** Documents and answers *)

Record Document := {
  doc_id : string;
  content : string;
  meta : gmap string PyVal;
  embedding : option (list Q)
}.

Record GeneratedAnswer := {
  data : string;
  query : string;
  documents : list Document;
  answer_meta : gmap string PyVal
}.

(** ** Values on the ports *)

Record ByteStream := {
  stream_data : string;
  stream_meta : gmap string PyVal
}.

Inductive Source :=
| SPath (path : string)
| SStream (s : ByteStream).

(** What travels along a connection or is handed to [run]. *)
Inductive Value :=
| VStr (s : string)
| VInt (z : Z)
| VListStr (l : list string)
| VListFloat (l : list Q)
| VListByteStream (l : list ByteStream)
| VListDocument (l : list Document)
| VListDict (l : list (gmap string PyVal))
| VListAnswer (l : list GeneratedAnswer).

Definition as_str (v : Value) : option string :=
  match v with VStr s => Some s | _ => None end.
Definition as_list_str (v : Value) : option (list string) :=
  match v with VListStr l => Some l | _ => None end.
Definition as_list_float (v : Value) : option (list Q) :=
  match v with VListFloat l => Some l | _ => None end.
Definition as_list_document (v : Value) : option (list Document) :=
  match v with VListDocument l => Some l | _ => None end.
Definition as_list_dict (v : Value) : option (list (gmap string PyVal)) :=
  match v with VListDict l => Some l | _ => None end.
Definition as_list_answer (v : Value) : option (list GeneratedAnswer) :=
  match v with VListAnswer l => Some l | _ => None end.
Definition as_list_source (v : Value) : option (list Source) :=
  match v with
  | VListStr l => Some (SPath <$> l)
  | VListByteStream l => Some (SStream <$> l)
  | _ => None
  end.

(** ** Components

    The notebooks build every pipeline out of library components; a
    component instance is its class together with the arguments the
    notebook passes to the constructor. *)

Inductive DuplicatePolicy := NONE | SKIP | OVERWRITE | FAIL.

(** A Jinja prompt template: literal text, [{{name}}], and one
    [{% for var in iter %} ... {% endfor %}] block whose body mixes text
    with [{{var.attr}}]. *)
Inductive LoopItem :=
| LText (s : string)
| LAttr (var attr : string).

Inductive TemplateItem :=
| TText (s : string)
| TVar (name : string)
| TFor (var iter : string) (body : list LoopItem).

Inductive Component :=
| LinkContentFetcher
| HTMLToDocument
| PyPDFToDocument
| DocumentJoiner
| DocumentCleaner
| DocumentSplitter (split_by : string) (split_length split_overlap : Z)
| SentenceTransformersDocumentEmbedder (model device : string)
| DocumentWriter (policy : DuplicatePolicy)
| SentenceTransformersTextEmbedder (model device : string)
| QdrantEmbeddingRetriever
| InMemoryEmbeddingRetriever
| PromptBuilder (template : list TemplateItem)
| OpenAIGenerator (model : string)
| AnswerBuilder.

(** *** Ports *)

Inductive Ty :=
| TAny | TStr | TInt | TListStr | TListFloat | TListByteStream | TListSource
| TListDocument | TListDict | TListAnswer.

#[global] Instance Ty_eq_dec : EqDecision Ty.
Proof. solve_decision. Defined.

Record InputSocket := {
  in_name : string;
  in_type : Ty;
  in_required : bool;
  in_variadic : bool
}.

Record OutputSocket := {
  out_name : string;
  out_type : Ty
}.

Definition required_input (name : string) (ty : Ty) : InputSocket :=
  {| in_name := name; in_type := ty; in_required := true; in_variadic := false |}.
Definition optional_input (name : string) (ty : Ty) : InputSocket :=
  {| in_name := name; in_type := ty; in_required := false; in_variadic := false |}.
Definition variadic_input (name : string) (ty : Ty) : InputSocket :=
  {| in_name := name; in_type := ty; in_required := true; in_variadic := true |}.
Definition output (name : string) (ty : Ty) : OutputSocket :=
  {| out_name := name; out_type := ty |}.

(** The variables a template mentions; a prompt builder declares one
    optional input per variable. *)
Definition template_variables (t : list TemplateItem) : list string :=
  remove_dups
    (omap (λ item, match item with
                   | TText _ => None
                   | TVar name => Some name
                   | TFor _ iter _ => Some iter
                   end) t).

(** Modelled from the spec: the named input and output ports each stage
    declares.  The declarations are the component library's and are not part
    of the repository; the names are the ones the notebooks use in [connect]
    and in the data handed to [run] (only the ports that carry data are
    listed), a port the component cannot run without is required, a prompt
    builder's ports are the variables of its template, and the joiner's
    port is the one that fans in. *)
Definition input_sockets (c : Component) : list InputSocket :=
  match c with
  | LinkContentFetcher => [required_input "urls" TListStr]
  | HTMLToDocument | PyPDFToDocument => [required_input "sources" TListSource]
  | DocumentJoiner => [variadic_input "documents" TListDocument]
  | DocumentCleaner | DocumentSplitter _ _ _
  | SentenceTransformersDocumentEmbedder _ _ =>
      [required_input "documents" TListDocument]
  | DocumentWriter _ => [required_input "documents" TListDocument]
  | SentenceTransformersTextEmbedder _ _ => [required_input "text" TStr]
  | QdrantEmbeddingRetriever | InMemoryEmbeddingRetriever =>
      [required_input "query_embedding" TListFloat]
  | PromptBuilder t => (λ v, optional_input v TAny) <$> template_variables t
  | OpenAIGenerator _ => [required_input "prompt" TStr]
  | AnswerBuilder =>
      [required_input "query" TStr; required_input "replies" TListStr;
       optional_input "meta" TListDict; optional_input "documents" TListDocument]
  end.

(** Modelled from the spec: the output ports, the other half of the same
    declarations. *)
Definition output_sockets (c : Component) : list OutputSocket :=
  match c with
  | LinkContentFetcher => [output "streams" TListByteStream]
  | HTMLToDocument | PyPDFToDocument | DocumentJoiner | DocumentCleaner
  | DocumentSplitter _ _ _ | SentenceTransformersDocumentEmbedder _ _
  | QdrantEmbeddingRetriever | InMemoryEmbeddingRetriever =>
      [output "documents" TListDocument]
  | DocumentWriter _ => [output "documents_written" TInt]
  | SentenceTransformersTextEmbedder _ _ => [output "embedding" TListFloat]
  | PromptBuilder _ => [output "prompt" TStr]
  | OpenAIGenerator _ => [output "replies" TListStr; output "meta" TListDict]
  | AnswerBuilder => [output "answers" TListAnswer]
  end.

(** An output may feed an input of the same type, an input of any type, and
    byte streams or paths may feed a list of sources. *)
Definition compatible (o i : Ty) : bool :=
  match i, o with
  | TAny, _ => true
  | TListSource, (TListSource | TListByteStream | TListStr) => true
  | _, _ => bool_decide (o = i)
  end.

(** ** Pipeline graphs *)

Record Connection := {
  sender : string;
  sender_socket : string;
  receiver : string;
  receiver_socket : string
}.

#[global] Instance Connection_eq_dec : EqDecision Connection.
Proof. solve_decision. Defined.

Record Pipeline := {
  components : list (string * Component);
  connections : list Connection
}.

Definition new_pipeline : Pipeline := {| components := []; connections := [] |}.

Definition get_component (p : Pipeline) (name : string) : result Component :=
  match list_find (λ nc, nc.1 = name) (components p) with
  | Some (_, (_, c)) => Ok c
  | None => Raise (ValueError ("Component named " ++ name ++ " not found in the pipeline."))
  end.

(** [Pipeline.add_component]: component names are unique. *)
Definition add_component (name : string) (instance : Component) (p : Pipeline)
  : result Pipeline :=
  match list_find (λ nc, nc.1 = name) (components p) with
  | Some _ => Raise (ValueError ("A component named '" ++ name ++ "' already exists in this pipeline: choose another name."))
  | None => Ok {| components := components p ++ [(name, instance)];
                  connections := connections p |}
  end.

(** ["component.port"] names a port, ["component"] leaves it to be found. *)
Fixpoint parse_connect_string (s : string) : string * option string :=
  match s with
  | EmptyString => (EmptyString, None)
  | String c rest =>
      if Ascii.eqb c "."%char then (EmptyString, Some rest)
      else let '(name, port) := parse_connect_string rest in (String c name, port)
  end.

Definition sender_candidates (c : Component) (port : option string)
  : result (list OutputSocket) :=
  match port with
  | None => Ok (output_sockets c)
  | Some name =>
      match list_find (λ s, out_name s = name) (output_sockets c) with
      | Some (_, s) => Ok [s]
      | None => Raise (PipelineConnectError ("no output named " ++ name))
      end
  end.

Definition receiver_candidates (c : Component) (port : option string)
  : result (list InputSocket) :=
  match port with
  | None => Ok (input_sockets c)
  | Some name =>
      match list_find (λ s, in_name s = name) (input_sockets c) with
      | Some (_, s) => Ok [s]
      | None => Raise (PipelineConnectError ("no input named " ++ name))
      end
  end.

(** The pair of ports a [connect] call means: the only type-compatible pair,
    or among several the only one whose two ports bear the same name. *)
Definition resolve_sockets (outs : list OutputSocket) (ins : list InputSocket)
  : result (OutputSocket * InputSocket) :=
  let possible :=
    filter (λ oi, compatible (out_type oi.1) (in_type oi.2) = true)
           (o ← outs; i ← ins; [(o, i)]) in
  match possible with
  | [] => Raise (PipelineConnectError "no matching connections available")
  | [oi] => Ok oi
  | _ =>
      match filter (λ oi, out_name oi.1 = in_name oi.2) possible with
      | [oi] => Ok oi
      | _ => Raise (PipelineConnectError "connection is ambiguous: name the ports")
      end
  end.

Definition producers (p : Pipeline) (node port : string) : nat :=
  length (filter (λ c, receiver c = node ∧ receiver_socket c = port) (connections p)).

(** Modelled from the spec: [Pipeline.connect], library code.  It wires a
    declared output port of the sender to a declared input port of the
    receiver; connecting twice is harmless, and only a variadic port takes a
    second producer. *)
Definition connect (sender_str receiver_str : string) (p : Pipeline) : result Pipeline :=
  let '(s_name, s_port) := parse_connect_string sender_str in
  let '(r_name, r_port) := parse_connect_string receiver_str in
  s_comp ← get_component p s_name;
  r_comp ← get_component p r_name;
  outs ← sender_candidates s_comp s_port;
  ins ← receiver_candidates r_comp r_port;
  '(o, i) ← resolve_sockets outs ins;
  let c := {| sender := s_name; sender_socket := out_name o;
              receiver := r_name; receiver_socket := in_name i |} in
  if bool_decide (c ∈ connections p) then Ok p
  else if negb (in_variadic i) && bool_decide (0 < producers p r_name (in_name i)) then
    Raise (PipelineConnectError ("'" ++ r_name ++ "." ++ in_name i ++ "' is already connected"))
  else Ok {| components := components p; connections := connections p ++ [c] |}.

(** The pipeline a construction yields (the empty one if it raised). *)
Definition built (r : result Pipeline) : Pipeline :=
  match r with
  | Ok p => p
  | Raise _ => new_pipeline
  end.


(** *** The shape of a graph *)

Definition edge (p : Pipeline) (a b : string) : Prop :=
  ∃ c, c ∈ connections p ∧ sender c = a ∧ receiver c = b.

Inductive path (p : Pipeline) : string → string → Prop :=
| path_edge a b : edge p a b → path p a b
| path_step a b c : edge p a b → path p b c → path p a c.

Definition acyclic (p : Pipeline) : Prop := ∀ v, ¬ path p v v.

(** A node is a source when no connection arrives at it. *)
Definition non_source (p : Pipeline) (name : string) : Prop :=
  Exists (λ c, receiver c = name) (connections p).

(** The place of a component in the order of the [add_component] calls. *)
Definition rank (p : Pipeline) (name : string) : nat :=
  default 0 (fst <$> list_find (λ nc, nc.1 = name) (components p)).

Definition ranked (p : Pipeline) : Prop :=
  Forall (λ c, rank p (sender c) < rank p (receiver c)) (connections p).

(** A property of every required input port of every non-source node. *)
Definition each_required_port (P : string → InputSocket → Prop) (p : Pipeline) : Prop :=
  ∀ name comp s,
    (name, comp) ∈ components p → non_source p name →
    s ∈ input_sockets comp → in_required s = true →
    P name s.

(** The same property, walked over the component list. *)
Definition check_required_ports (P : string → InputSocket → Prop) (p : Pipeline) : Prop :=
  Forall
    (λ nc, non_source p nc.1 →
           Forall (λ s, in_required s = true → P nc.1 s) (input_sockets nc.2))
    (components p).

Definition one_producer (p : Pipeline) (name : string) (s : InputSocket) : Prop :=
  producers p name (in_name s) = 1.

(** The graph invariant as the data model words it: no cycles, and every
    required input port of a non-source node has exactly one connected
    producer. *)
Definition graph_invariant (p : Pipeline) : Prop :=
  acyclic p ∧ each_required_port (one_producer p) p.

(** A port the caller fills through the data handed to [run]. *)
Definition supplied (data : gmap string (gmap string Value)) (name port : string) : Prop :=
  is_Some (data !! name ≫= (.!! port)).

(** What the notebooks' graphs do satisfy: a required input port of a
    non-source node has exactly one connected producer, or it is the
    joiner's variadic port, where two producers fan in, or it is the answer
    builder's query, which has no producer and is filled by the caller. *)
Definition port_fed (p : Pipeline) (data : gmap string (gmap string Value))
    (name : string) (s : InputSocket) : Prop :=
  producers p name (in_name s) = 1
  ∨ (name = "document_joiner" ∧ in_name s = "documents" ∧ in_variadic s = true
     ∧ producers p name (in_name s) = 2)
  ∨ (name = "answer_builder" ∧ in_name s = "query"
     ∧ producers p name (in_name s) = 0 ∧ supplied data name (in_name s)).

Definition fed_graph_invariant (p : Pipeline) (data : gmap string (gmap string Value))
  : Prop :=
  acyclic p ∧ each_required_port (port_fed p data) p.

(** Whether connections lead from [a] to [b] in at most [fuel] steps. *)
Fixpoint reaches (fuel : nat) (p : Pipeline) (a b : string) : bool :=
  match fuel with
  | O => false
  | S fuel' =>
      existsb
        (λ c, if bool_decide (sender c = a) then
                if bool_decide (receiver c = b) then true
                else reaches fuel' p (receiver c) b
              else false)
        (connections p)
  end.

(** Every other component leads to [sink], and no connection leaves it. *)
Definition drains_into (p : Pipeline) (sink : string) : Prop :=
  (∀ name, name ∈ (components p).*1 → name ≠ sink → path p name sink)
  ∧ ∀ name, ¬ edge p sink name.

#[global] Instance non_source_dec p name : Decision (non_source p name).
Proof. unfold non_source. apply _. Defined.

#[global] Instance ranked_dec p : Decision (ranked p).
Proof. unfold ranked. apply _. Defined.

#[global] Instance one_producer_dec p name s : Decision (one_producer p name s).
Proof. unfold one_producer. apply _. Defined.

#[global] Instance port_fed_dec p data name s : Decision (port_fed p data name s).
Proof. unfold port_fed, supplied. apply _. Defined.

#[global] Instance check_required_ports_dec P p :
  (∀ name s, Decision (P name s)) → Decision (check_required_ports P p).
Proof. intros HP. unfold check_required_ports. apply _. Defined.
(** ** Running a pipeline *)

(** *** Delegated work

    Fetching, conversion, joining, cleaning, splitting, loading an
    embedding model, embedding, the store's write and similarity query, and
    text generation are the work of external libraries and services.  A run is a program over these requests;
    each request names what is asked and the type of what comes back. *)
Inductive Op : Type → Type :=
| FetchStreams (urls : list string) : Op (list ByteStream)
| HtmlToDocuments (sources : list Source) : Op (list Document)
| PdfToDocuments (sources : list Source) : Op (list Document)
| JoinDocuments (lists : list (list Document)) : Op (list Document)
| CleanDocuments (docs : list Document) : Op (list Document)
| SplitDocuments (split_by : string) (split_length split_overlap : Z)
    (docs : list Document) : Op (list Document)
| WarmUp (model device : string) : Op unit
| EmbedDocuments (model device : string) (docs : list Document) : Op (list Document)
| WriteDocuments (policy : DuplicatePolicy) (docs : list Document) : Op Z
| EmbedText (model device text : string) : Op (list Q)
| EmbeddingRetrieval (query_embedding : list Q) : Op (list Document)
| Generate (model prompt : string) : Op (list (string * gmap string PyVal)).

Inductive Prog (A : Type) : Type :=
| Ret (a : A)
| Fail (e : Exception)
| Call {X : Type} (op : Op X) (k : X → Prog A).
Arguments Ret {A} a.
Arguments Fail {A} e.
Arguments Call {A X} op k.

Fixpoint prog_bind {A B} (f : A → Prog B) (m : Prog A) : Prog B :=
  match m with
  | Ret a => f a
  | Fail e => Fail e
  | Call op k => Call op (λ x, prog_bind f (k x))
  end.

#[global] Instance Prog_ret : MRet Prog := λ _ a, Ret a.
#[global] Instance Prog_bind : MBind Prog := λ _ _ f m, prog_bind f m.

Definition call {X} (op : Op X) : Prog X := Call op Ret.

(** *** Prompt rendering *)

Definition render_loop_item (var : string) (doc : Document) (item : LoopItem) : string :=
  match item with
  | LText s => s
  | LAttr v attr =>
      if bool_decide (v = var ∧ attr = "content") then content doc else ""
  end.

Definition render_item (env : gmap string Value) (item : TemplateItem) : string :=
  match item with
  | TText s => s
  | TVar name =>
      match env !! name with
      | Some (VStr s) => s
      | _ => ""
      end
  | TFor var iter body =>
      match env !! iter with
      | Some (VListDocument docs) =>
          String.concat "" (doc ← docs; render_loop_item var doc <$> body)
      | _ => ""
      end
  end.

Definition render (template : list TemplateItem) (env : gmap string Value) : string :=
  String.concat "" (render_item env <$> template).

(** *** Answers *)

(** Modelled from the spec: the answer builder, a library component.  It
    packages each raw model reply together with the originating documents
    and that reply's metadata into a final answer object; a reply without
    metadata gets the empty dictionary. *)
Definition build_answers (question : string) (replies : list string)
    (metas : option (list (gmap string PyVal))) (docs : option (list Document))
  : list GeneratedAnswer :=
  zip_with
    (λ reply m, {| data := reply; query := question;
                   documents := default [] docs; answer_meta := m |})
    replies
    (default (replicate (length replies) ∅) metas).

(** *** Components *)

Definition input (ins : gmap string (list Value)) (name : string) : option Value :=
  ins !! name ≫= head.

Definition required {A} (ins : gmap string (list Value)) (name : string)
    (proj : Value → option A) : Prog A :=
  match input ins name with
  | None => Fail (PipelineRuntimeError ("Missing input: " ++ name))
  | Some v =>
      match proj v with
      | Some a => mret a
      | None => Fail (TypeError name)
      end
  end.

Definition optional {A} (ins : gmap string (list Value)) (name : string)
    (proj : Value → option A) : Prog (option A) :=
  match input ins name with
  | None => mret None
  | Some v =>
      match proj v with
      | Some a => mret (Some a)
      | None => Fail (TypeError name)
      end
  end.

Definition variadic {A} (ins : gmap string (list Value)) (name : string)
    (proj : Value → option A) : Prog (list A) :=
  match ins !! name with
  | None | Some [] => Fail (PipelineRuntimeError ("Missing input: " ++ name))
  | Some vs =>
      match mapM proj vs with
      | Some l => mret l
      | None => Fail (TypeError name)
      end
  end.

Definition retrieve (ins : gmap string (list Value)) : Prog (gmap string Value) :=
  query_embedding ← required ins "query_embedding" as_list_float;
  docs ← call (EmbeddingRetrieval query_embedding);
  mret {[ "documents" := VListDocument docs ]}.

(** What one component does with the values on its input ports. *)
Definition run_component (c : Component) (ins : gmap string (list Value))
  : Prog (gmap string Value) :=
  match c with
  | LinkContentFetcher =>
      urls ← required ins "urls" as_list_str;
      streams ← call (FetchStreams urls);
      mret {[ "streams" := VListByteStream streams ]}
  | HTMLToDocument =>
      sources ← required ins "sources" as_list_source;
      docs ← call (HtmlToDocuments sources);
      mret {[ "documents" := VListDocument docs ]}
  | PyPDFToDocument =>
      sources ← required ins "sources" as_list_source;
      docs ← call (PdfToDocuments sources);
      mret {[ "documents" := VListDocument docs ]}
  | DocumentJoiner =>
      lists ← variadic ins "documents" as_list_document;
      docs ← call (JoinDocuments lists);
      mret {[ "documents" := VListDocument docs ]}
  | DocumentCleaner =>
      docs ← required ins "documents" as_list_document;
      docs ← call (CleanDocuments docs);
      mret {[ "documents" := VListDocument docs ]}
  | DocumentSplitter split_by split_length split_overlap =>
      docs ← required ins "documents" as_list_document;
      docs ← call (SplitDocuments split_by split_length split_overlap docs);
      mret {[ "documents" := VListDocument docs ]}
  | SentenceTransformersDocumentEmbedder model device =>
      docs ← required ins "documents" as_list_document;
      docs ← call (EmbedDocuments model device docs);
      mret {[ "documents" := VListDocument docs ]}
  | DocumentWriter policy =>
      docs ← required ins "documents" as_list_document;
      written ← call (WriteDocuments policy docs);
      mret {[ "documents_written" := VInt written ]}
  | SentenceTransformersTextEmbedder model device =>
      text ← required ins "text" as_str;
      e ← call (EmbedText model device text);
      mret {[ "embedding" := VListFloat e ]}
  | QdrantEmbeddingRetriever => retrieve ins
  | InMemoryEmbeddingRetriever => retrieve ins
  | PromptBuilder template =>
      mret {[ "prompt" := VStr (render template (omap head ins)) ]}
  | OpenAIGenerator model =>
      prompt ← required ins "prompt" as_str;
      completions ← call (Generate model prompt);
      mret {[ "replies" := VListStr completions.*1;
              "meta" := VListDict completions.*2 ]}
  | AnswerBuilder =>
      question ← required ins "query" as_str;
      replies ← required ins "replies" as_list_str;
      metas ← optional ins "meta" as_list_dict;
      docs ← optional ins "documents" as_list_document;
      mret {[ "answers" := VListAnswer (build_answers question replies metas docs) ]}
  end.

(** *** The runner *)

(** The values that reach the input ports of [name]: what the caller put
    in the run data, then what connected senders have produced, in
    connection order. *)
Definition gather (p : Pipeline) (data produced : gmap string (gmap string Value))
    (name : string) : gmap string (list Value) :=
  foldl
    (λ ins c,
       if bool_decide (receiver c = name) then
         match produced !! sender c ≫= (.!! sender_socket c) with
         | Some v =>
             <[receiver_socket c := (default [] (ins !! receiver_socket c) ++ [v])%list]> ins
         | None => ins
         end
       else ins)
    ((λ v, [v]) <$> default ∅ (data !! name))
    (connections p).

(** A component can run once every sender connected to it has run. *)
Definition ready (p : Pipeline) (waiting : list (string * Component)) (name : string)
  : bool :=
  forallb
    (λ c, negb (bool_decide (receiver c = name))
          || negb (bool_decide (sender c ∈ waiting.*1)))
    (connections p).

Fixpoint run_loop (fuel : nat) (p : Pipeline) (data : gmap string (gmap string Value))
    (waiting : list (string * Component)) (produced : gmap string (gmap string Value))
  : Prog (gmap string (gmap string Value)) :=
  match waiting, fuel with
  | [], _ => mret produced
  | _, O => Fail (PipelineRuntimeError "the run did not finish")
  | _, S fuel' =>
      match list_find (λ nc, ready p waiting nc.1 = true) waiting with
      | None => Fail (PipelineRuntimeError "no component can run: the graph has a cycle")
      | Some (_, (name, c)) =>
          outs ← run_component c (gather p data produced name);
          run_loop fuel' p data (filter (λ nc, nc.1 ≠ name) waiting)
                   (<[name := outs]> produced)
      end
  end.

(** The outputs nobody consumes are the result of the run. *)
Definition consumed (p : Pipeline) (name port : string) : bool :=
  existsb (λ c, bool_decide (sender c = name ∧ sender_socket c = port)) (connections p).

Definition leaf_outputs (p : Pipeline) (produced : gmap string (gmap string Value))
  : gmap string (gmap string Value) :=
  map_imap
    (λ name outs,
       let left := filter (λ kv, consumed p name kv.1 = false) outs in
       if bool_decide (dom left = ∅) then None else Some left)
    produced.

(** Modelled from the spec: the pipeline runner, library code.  It
    performs a topological data-flow execution, passing the output of one
    stage as input to the next, fanning in at a variadic port and fanning
    out where a stage feeds several consumers. *)
Definition run (p : Pipeline) (data : gmap string (gmap string Value))
  : Prog (gmap string (gmap string Value)) :=
  if bool_decide (dom data ⊆ list_to_set (components p).*1) then
    produced ← run_loop (length (components p)) p data (components p) ∅;
    mret (leaf_outputs p produced)
  else Fail (ValueError "run data names a component that is not in the pipeline").

(** *** Carrying a program out

    The state a run can touch: the notebook's document store (documents by
    identifier) and the number of requests sent to the text-generation
    service so far (two requests need not be answered alike). *)
Record World := {
  store : gmap string Document;
  llm_calls : nat
}.

Definition M (A : Type) : Type := World → result A * World.

#[global] Instance M_ret : MRet M := λ _ a w, (Ok a, w).
#[global] Instance M_bind : MBind M := λ _ _ f m w,
  match m w with
  | (Ok a, w') => f a w'
  | (Raise e, w') => (Raise e, w')
  end.

Definition lift {A} (r : result A) : M A := λ w, (r, w).
Definition get_store : M (gmap string Document) := λ w, (Ok (store w), w).
Definition put_store (s : gmap string Document) : M unit :=
  λ w, (Ok tt, {| store := s; llm_calls := llm_calls w |}).
Definition next_llm_call : M nat :=
  λ w, (Ok (llm_calls w), {| store := store w; llm_calls := S (llm_calls w) |}).

(** The libraries and services behind the requests.  None of it is
    repository code; every call may fail.  The store's write and query see
    the store, the generator sees the number of the request. *)
Class Library := {
  fetch_streams : list string → result (list ByteStream);
  html_to_documents : list Source → result (list Document);
  pdf_to_documents : list Source → result (list Document);
  join_documents : list (list Document) → result (list Document);
  clean_documents : list Document → result (list Document);
  split_documents : string → Z → Z → list Document → result (list Document);
  warm_up : string → string → result unit;
  embed_documents : string → string → list Document → result (list Document);
  write_documents :
    DuplicatePolicy → list Document → gmap string Document →
    result (gmap string Document * Z);
  embed_text : string → string → string → result (list Q);
  embedding_retrieval : gmap string Document → list Q → result (list Document);
  generate : nat → string → string → result (list (string * gmap string PyVal))
}.

Section Exec.
Context `{Library}.

Definition perform {X} (op : Op X) : M X :=
  match op with
  | FetchStreams urls => lift (fetch_streams urls)
  | HtmlToDocuments sources => lift (html_to_documents sources)
  | PdfToDocuments sources => lift (pdf_to_documents sources)
  | JoinDocuments lists => lift (join_documents lists)
  | CleanDocuments docs => lift (clean_documents docs)
  | SplitDocuments split_by split_length split_overlap docs =>
      lift (split_documents split_by split_length split_overlap docs)
  | WarmUp model device => lift (warm_up model device)
  | EmbedDocuments model device docs => lift (embed_documents model device docs)
  | WriteDocuments policy docs =>
      s ← get_store;
      '(s', written) ← lift (write_documents policy docs s);
      _ ← put_store s';
      mret written
  | EmbedText model device text => lift (embed_text model device text)
  | EmbeddingRetrieval query_embedding =>
      s ← get_store;
      lift (embedding_retrieval s query_embedding)
  | Generate model prompt =>
      n ← next_llm_call;
      lift (generate n model prompt)
  end.

Fixpoint exec {A} (m : Prog A) : M A :=
  match m with
  | Ret a => mret a
  | Fail e => lift (Raise e)
  | Call op k => x ← perform op; exec (k x)
  end.
End Exec.

(** *** Reading a run *)

Definition writes_store {X} (op : Op X) : bool :=
  match op with
  | WriteDocuments _ _ => true
  | _ => false
  end.

(** The only component that writes the store. *)
Definition is_writer (c : Component) : bool :=
  match c with
  | DocumentWriter _ => true
  | _ => false
  end.

Definition writer_free (p : Pipeline) : Prop :=
  Forall (λ nc, is_writer nc.2 = false) (components p).

(** A program none of whose requests writes the store, whatever the
    answers to its requests are. *)
Inductive ReadOnly {A} : Prog A → Prop :=
| read_only_ret a : ReadOnly (Ret a)
| read_only_fail e : ReadOnly (Fail e)
| read_only_call {X} (op : Op X) k :
    writes_store op = false → (∀ x, ReadOnly (k x)) → ReadOnly (Call op k).

(** *** Writing under the duplicate policy "skip" *)

(** Modelled from the spec: the store's write under the duplicate policy
    "skip", library code.  Documents are written in order; a document whose
    identifier (the hash of its content) the store already holds is skipped,
    any other is added under its identifier.  The result is the store and
    the number of documents written. *)
Fixpoint skip_write (docs : list Document) (s : gmap string Document)
  : gmap string Document * Z :=
  match docs with
  | [] => (s, 0%Z)
  | doc :: docs' =>
      match s !! doc_id doc with
      | Some _ => skip_write docs' s
      | None =>
          let '(s', written) := skip_write docs' (<[doc_id doc := doc]> s) in
          (s', (written + 1)%Z)
      end
  end.

(** [document_store.count_documents()] *)
Definition count_documents (s : gmap string Document) : Z := Z.of_nat (size s).

(** Modelled from the spec: the store files every document under its
    identifier. *)
Definition filed (s : gmap string Document) : Prop :=
  map_Forall (λ i d, doc_id d = i) s.

(** The documents a store holds. *)
Definition stored (s : gmap string Document) : list Document := (map_to_list s).*2.

(** Modelled from the spec: the identifier of a document is the hash of
    its content, so that two documents among [ds] have the same identifier
    exactly when they have the same content. *)
Definition content_hashed (ds : list Document) : Prop :=
  Forall (λ d, Forall (λ d', doc_id d = doc_id d' ↔ content d = content d') ds) ds.

#[global] Instance filed_dec s : Decision (filed s).
Proof. unfold filed. apply _. Defined.

#[global] Instance content_hashed_dec ds : Decision (content_hashed ds).
Proof. unfold content_hashed. apply _. Defined.

(** The store holds the content [c], and under one identifier only. *)
Definition held_once (s : gmap string Document) (c : string) : Prop :=
  ∃ i, (∃ d, s !! i = Some d ∧ content d = c)
       ∧ ∀ j d, s !! j = Some d → content d = c → j = i.

(** The ingestion pipelines read as straight-line programs: pages and files
    are fetched and converted, joined, cleaned, split and embedded, and the
    result is written under "skip". *)
Definition ingest_sources (urls pdfs : list string) (split_length : Z)
    (embed_model : string) : Prog (gmap string (gmap string Value)) :=
  streams ← call (FetchStreams urls);
  html_docs ← call (HtmlToDocuments (SStream <$> streams));
  pdf_docs ← call (PdfToDocuments (SPath <$> pdfs));
  docs ← call (JoinDocuments [html_docs; pdf_docs]);
  docs ← call (CleanDocuments docs);
  docs ← call (SplitDocuments "word" split_length 16 docs);
  docs ← call (EmbedDocuments embed_model "cuda:0" docs);
  written ← call (WriteDocuments SKIP docs);
  mret {[ "writer" := {[ "documents_written" := VInt written ]} ]}.

Definition ingest_pages (urls : list string) (split_length : Z)
    (embed_model : string) : Prog (gmap string (gmap string Value)) :=
  streams ← call (FetchStreams urls);
  docs ← call (HtmlToDocuments (SStream <$> streams));
  docs ← call (CleanDocuments docs);
  docs ← call (SplitDocuments "word" split_length 16 docs);
  docs ← call (EmbedDocuments embed_model "cuda:0" docs);
  written ← call (WriteDocuments SKIP docs);
  mret {[ "writer" := {[ "documents_written" := VInt written ]} ]}.

(** The documents a run of the pipeline hands to the writer. *)
Definition piped_sources `{Library} (urls pdfs : list string) (split_length : Z)
    (embed_model : string) : result (list Document) :=
  streams ← fetch_streams urls;
  html_docs ← html_to_documents (SStream <$> streams);
  pdf_docs ← pdf_to_documents (SPath <$> pdfs);
  docs ← join_documents [html_docs; pdf_docs];
  docs ← clean_documents docs;
  docs ← split_documents "word" split_length 16 docs;
  embed_documents embed_model "cuda:0" docs.

Definition piped_pages `{Library} (urls : list string) (split_length : Z)
    (embed_model : string) : result (list Document) :=
  streams ← fetch_streams urls;
  docs ← html_to_documents (SStream <$> streams);
  docs ← clean_documents docs;
  docs ← split_documents "word" split_length 16 docs;
  embed_documents embed_model "cuda:0" docs.

(** The documents that reach the writer in [create_vector_database], which
    loads the embedding model before it builds and runs the pipeline. *)
Definition prepared_sources `{Library} (urls pdfs : list string) (split_length : Z)
    (embed_model : string) : result (list Document) :=
  _ ← warm_up embed_model "cuda:0";
  piped_sources urls pdfs split_length embed_model.

Definition prepared_pages `{Library} (urls : list string) (split_length : Z)
    (embed_model : string) : result (list Document) :=
  _ ← warm_up embed_model "cuda:0";
  piped_pages urls split_length embed_model.

(** The store a run of the writer leaves behind. *)
Definition store_after_write `{Library} (prepared : result (list Document))
    (s : gmap string Document) : gmap string Document :=
  match prepared with
  | Ok docs =>
      match write_documents SKIP docs s with
      | Ok (s', _) => s'
      | Raise _ => s
      end
  | Raise _ => s
  end.

(** The query pipeline read as a straight-line program: embed the question,
    query the store, render the prompt over the question and the retrieved
    documents, ask the generator, build the answers. *)
Definition answer_question (embed_model device : string)
    (template : list TemplateItem) (llm_model question : string)
  : Prog (gmap string (gmap string Value)) :=
  e ← call (EmbedText embed_model device question);
  docs ← call (EmbeddingRetrieval e);
  completions ←
    call (Generate llm_model
            (render template
               {[ "question" := VStr question; "documents" := VListDocument docs ]}));
  mret {[ "answer_builder" :=
            {[ "answers" :=
                 VListAnswer
                   (build_answers question completions.*1
                      (Some completions.*2) (Some docs)) ]} ]}.

(** The answer object for one completion of the generator. *)
Definition answer_of (question : string) (docs : list Document)
    (completion : string * gmap string PyVal) : GeneratedAnswer :=
  {| data := completion.1; query := question;
     documents := docs; answer_meta := completion.2 |}.

(** The state after a run that sent the generator one request. *)
Definition asked (w : World) : World :=
  {| store := store w; llm_calls := S (llm_calls w) |}.
(** ** The notebooks *)

Definition nl : string := String (ascii_of_nat 10) EmptyString.

(** The data every query run is given: the question goes to the text
    embedder, the prompt builder and the answer builder. *)
Definition question_inputs (question : string) : gmap string (gmap string Value) :=
  {[ "text_embedder" := {[ "text" := VStr question ]};
     "prompt_builder" := {[ "question" := VStr question ]};
     "answer_builder" := {[ "query" := VStr question ]} ]}.

(** [response["answer_builder"]["answers"][0]] *)
Definition first_answer (response : gmap string (gmap string Value))
  : result GeneratedAnswer :=
  outs ← py_getitem response "answer_builder";
  v ← py_getitem outs "answers";
  match as_list_answer v with
  | Some answers => py_first answers
  | None => Raise (TypeError "answers")
  end.

(** *** rag_arbitrary_sources.ipynb *)

Module ArbitrarySources.

Definition urls : list string :=
  [ "https://medium.com/@ssafarveisi/stream-processing-using-apache-flink-70c5a990801a";
    "https://medium.com/@ssafarveisi/pyspark-stream-processing-on-k8s-using-stackable-data-platform-5695b0eafd6f" ].

(** The pipeline [create_vector_database] assembles. *)
Definition indexing_pipeline : result Pipeline :=
  p ← add_component "fetcher" LinkContentFetcher new_pipeline;
  p ← add_component "html_converter" HTMLToDocument p;
  p ← add_component "pdf_converter" PyPDFToDocument p;
  p ← add_component "document_joiner" DocumentJoiner p;
  p ← add_component "cleaner" DocumentCleaner p;
  p ← add_component "splitter" (DocumentSplitter "word" 256 16) p;
  p ← add_component "document_embedder"
        (SentenceTransformersDocumentEmbedder "BAAI/bge-small-en-v1.5" "cuda:0") p;
  p ← add_component "writer" (DocumentWriter SKIP) p;
  p ← connect "fetcher.streams" "html_converter.sources" p;
  p ← connect "html_converter" "document_joiner" p;
  p ← connect "pdf_converter" "document_joiner" p;
  p ← connect "document_joiner.documents" "cleaner" p;
  p ← connect "cleaner" "splitter" p;
  p ← connect "splitter" "document_embedder" p;
  p ← connect "document_embedder" "writer.documents" p;
  mret p.

Definition indexing_inputs : gmap string (gmap string Value) :=
  {[ "fetcher" := {[ "urls" := VListStr urls ]};
     "pdf_converter" := {[ "sources" := VListStr ["artifactory_for_poetry.pdf"] ]} ]}.

(** The store is persisted ([recreate_index=False]): a run writes into
    whatever the store already holds.  The embedding model is loaded
    ([document_embedder.warm_up()]) before the pipeline is built. *)
Definition create_vector_database `{Library} : M (gmap string Document) :=
  _ ← exec (call (WarmUp "BAAI/bge-small-en-v1.5" "cuda:0"));
  p ← lift indexing_pipeline;
  _ ← exec (run p indexing_inputs);
  get_store.

Definition prompt_template : list TemplateItem :=
  [ TText (nl ++ "    Answer the following question given the documents." ++ nl
           ++ "    If the answer is not contained within the documents reply with 'no_answer'" ++ nl
           ++ "    Query: ");
    TVar "question";
    TText (nl ++ "    Documents:" ++ nl ++ "    ");
    TFor "document" "documents"
      [ LText (nl ++ "    "); LAttr "document" "content"; LText (nl ++ "    ") ];
    TText (nl ++ "    ") ].

Definition create_rag_pipeline : result Pipeline :=
  p ← add_component "text_embedder"
        (SentenceTransformersTextEmbedder "BAAI/bge-small-en-v1.5" "cuda:0") new_pipeline;
  p ← add_component "retriever" QdrantEmbeddingRetriever p;
  p ← add_component "prompt_builder" (PromptBuilder prompt_template) p;
  p ← add_component "llm" (OpenAIGenerator "gpt-4o-mini") p;
  p ← add_component "answer_builder" AnswerBuilder p;
  p ← connect "text_embedder.embedding" "retriever.query_embedding" p;
  p ← connect "retriever" "prompt_builder.documents" p;
  p ← connect "prompt_builder" "llm" p;
  p ← connect "llm.replies" "answer_builder.replies" p;
  p ← connect "llm.meta" "answer_builder.meta" p;
  p ← connect "retriever" "answer_builder.documents" p;
  mret p.

Definition rag_pipeline : Pipeline := built create_rag_pipeline.

(** [extract_source] of [evaluate_embedding]. *)
Definition extract_source (doc : Document) : result PyVal :=
  if py_in "url" (meta doc) then
    py_getitem (meta doc) "url"
  else if py_in "file_path" (meta doc) then
    py_getitem (meta doc) "file_path"
  else
    Raise (KeyError "Neither 'url' nor 'file_path' exists in the metadata").

Definition retrieve_doc_sources `{Library} (question : string) : M (list PyVal) :=
  response ← exec (run rag_pipeline (question_inputs question));
  answer ← lift (first_answer response);
  lift (mapM extract_source (documents answer)).

(** [question_df["question"].apply(retrieve_doc_sources)], on the
    questions of that column, in row order. *)
Definition retriever_model_function `{Library} (questions : list string)
  : M (list (list PyVal)) :=
  mapM retrieve_doc_sources questions.

End ArbitrarySources.

(** *** rag_mlflow_documents.ipynb *)

Module MlflowDocuments.

Definition urls : list string :=
  [ "https://mlflow.org/docs/latest/index.html";
    "https://mlflow.org/docs/latest/tracking/autolog.html";
    "https://mlflow.org/docs/latest/getting-started/tracking-server-overview/index.html";
    "https://mlflow.org/docs/latest/python_api/mlflow.deployments.html" ].

(** The pipeline [create_vector_database] assembles. *)
Definition indexing_pipeline (split_length : Z) : result Pipeline :=
  p ← add_component "fetcher" LinkContentFetcher new_pipeline;
  p ← add_component "html_converter" HTMLToDocument p;
  p ← add_component "cleaner" DocumentCleaner p;
  p ← add_component "splitter" (DocumentSplitter "word" split_length 16) p;
  p ← add_component "document_embedder"
        (SentenceTransformersDocumentEmbedder "BAAI/bge-large-en-v1.5" "cuda:0") p;
  p ← add_component "writer" (DocumentWriter SKIP) p;
  p ← connect "fetcher.streams" "html_converter.sources" p;
  p ← connect "html_converter.documents" "cleaner" p;
  p ← connect "cleaner" "splitter" p;
  p ← connect "splitter" "document_embedder" p;
  p ← connect "document_embedder" "writer.documents" p;
  mret p.

(** Every call starts from a new in-memory store and loads the embedding
    model ([document_embedder.warm_up()]) before the pipeline is built. *)
Definition create_vector_database `{Library} (urls : list string) (split_length : Z)
  : M (gmap string Document) :=
  _ ← put_store ∅;
  _ ← exec (call (WarmUp "BAAI/bge-large-en-v1.5" "cuda:0"));
  p ← lift (indexing_pipeline split_length);
  _ ← exec (run p {[ "fetcher" := {[ "urls" := VListStr urls ]} ]});
  get_store.

Definition prompt_template : list TemplateItem :=
  [ TText (nl ++ "    Answer the following question given the documents." ++ nl
           ++ "    If the answer is not contained within the documents reply with 'no_answer'. " ++ nl
           ++ "    Your answer should not exceed 100 words. " ++ nl
           ++ "    Query: ");
    TVar "question";
    TText (nl ++ "    Documents:" ++ nl ++ "    ");
    TFor "document" "documents"
      [ LText (nl ++ "    "); LAttr "document" "content"; LText (nl ++ "    ") ];
    TText (nl ++ "    ") ].

Definition create_rag_pipeline : result Pipeline :=
  p ← add_component "text_embedder"
        (SentenceTransformersTextEmbedder "BAAI/bge-large-en-v1.5" "cuda:0") new_pipeline;
  p ← add_component "retriever" InMemoryEmbeddingRetriever p;
  p ← add_component "prompt_builder" (PromptBuilder prompt_template) p;
  p ← add_component "llm" (OpenAIGenerator "gpt-4o-mini") p;
  p ← add_component "answer_builder" AnswerBuilder p;
  p ← connect "text_embedder.embedding" "retriever.query_embedding" p;
  p ← connect "retriever" "prompt_builder.documents" p;
  p ← connect "prompt_builder" "llm" p;
  p ← connect "llm.replies" "answer_builder.replies" p;
  p ← connect "llm.meta" "answer_builder.meta" p;
  p ← connect "retriever" "answer_builder.documents" p;
  mret p.

Definition rag_pipeline : Pipeline := built create_rag_pipeline.

(** [extract_source] of [evaluate_split_length]. *)
Definition extract_source (doc : Document) : result PyVal :=
  if py_in "url" (meta doc) then
    py_getitem (meta doc) "url"
  else
    Raise (KeyError "'url' key does not exist in the metadata").

Definition retrieve_doc_sources `{Library} (question : string) : M (list PyVal) :=
  response ← exec (run rag_pipeline (question_inputs question));
  answer ← lift (first_answer response);
  lift (mapM extract_source (documents answer)).

(** [question_df["question"].apply(retrieve_doc_sources)], on the
    questions of that column, in row order. *)
Definition retriever_model_function `{Library} (questions : list string)
  : M (list (list PyVal)) :=
  mapM retrieve_doc_sources questions.

Definition qa `{Library} (question : string) : M (gmap string Value) :=
  response ← exec (run rag_pipeline (question_inputs question));
  response ← lift (first_answer response);
  let out : gmap string Value := ∅ in
  let out := <["result" := VStr (data response)]> out in
  let out := <["source_documents" := VListStr (content <$> documents response)]> out in
  mret out.

(** [input_df["questions"].map(qa).tolist()], on the questions of that
    column, in row order. *)
Definition model `{Library} (questions : list string) : M (list (gmap string Value)) :=
  mapM qa questions.

End MlflowDocuments.
(** ** Sample data *)

(** A retrieved web page chunk and a retrieved PDF chunk, as the converters
    label them, a document carrying both labels and one carrying neither. *)
Definition web_doc : Document :=
  {| doc_id := "d1"; content := "Stackable 22.11";
     meta := {[ "url" := PyStr "https://medium.com/@ssafarveisi/stream-processing-using-apache-flink-70c5a990801a" ]};
     embedding := None |}.

Definition pdf_doc : Document :=
  {| doc_id := "d2"; content := "DEFAULT_CA_BUNDLE";
     meta := {[ "file_path" := PyStr "artifactory_for_poetry.pdf" ]};
     embedding := None |}.

Definition both_doc : Document :=
  {| doc_id := "d3"; content := "mirrored";
     meta := {[ "url" := PyStr "https://mlflow.org/docs/latest/index.html";
                "file_path" := PyStr "index.pdf" ]};
     embedding := None |}.

Definition bare_doc : Document :=
  {| doc_id := "d4"; content := "unlabelled"; meta := ∅; embedding := None |}.

(** A stand-in for the delegated work, small enough to evaluate: pages and
    files become one document each, the model loads, cleaning, splitting
    and embedding leave the text alone, the store writes under "skip"
    whatever the policy, retrieval returns the stored documents in
    identifier order, and the generator answers the [n]-th request with the
    single reply [reply n]. *)
Definition sample_document (s : Source) : Document :=
  match s with
  | SPath path =>
      {| doc_id := path; content := path;
         meta := {[ "file_path" := PyStr path ]}; embedding := None |}
  | SStream b =>
      {| doc_id := stream_data b; content := stream_data b;
         meta := stream_meta b; embedding := None |}
  end.

Definition sample_library : Library := {|
  fetch_streams urls :=
    Ok ((λ u, {| stream_data := u; stream_meta := {[ "url" := PyStr u ]} |}) <$> urls);
  html_to_documents sources := Ok (sample_document <$> sources);
  pdf_to_documents sources := Ok (sample_document <$> sources);
  join_documents lists := Ok (mjoin lists);
  clean_documents docs := Ok docs;
  split_documents _ _ _ docs := Ok docs;
  warm_up _ _ := Ok tt;
  embed_documents _ _ docs := Ok docs;
  write_documents _ docs s := Ok (skip_write docs s);
  embed_text _ _ _ := Ok [];
  embedding_retrieval s _ := Ok (map_to_list s).*2;
  generate n model _ :=
    Ok [ ("reply " ++ pretty n, {[ "model" := PyStr model; "index" := PyInt 0 ]}) ]
|}.

(** The same stand-in with a generator that returns no completion. *)
Definition mute_library : Library := {|
  fetch_streams := @fetch_streams sample_library;
  html_to_documents := @html_to_documents sample_library;
  pdf_to_documents := @pdf_to_documents sample_library;
  join_documents := @join_documents sample_library;
  clean_documents := @clean_documents sample_library;
  split_documents := @split_documents sample_library;
  warm_up := @warm_up sample_library;
  embed_documents := @embed_documents sample_library;
  write_documents := @write_documents sample_library;
  embed_text := @embed_text sample_library;
  embedding_retrieval := @embedding_retrieval sample_library;
  generate _ _ _ := Ok []
|}.

(** Nothing can be reached: every request fails. *)
Definition offline : Exception := ServiceError "offline".

Definition offline_library : Library := {|
  fetch_streams _ := Raise offline;
  html_to_documents _ := Raise offline;
  pdf_to_documents _ := Raise offline;
  join_documents _ := Raise offline;
  clean_documents _ := Raise offline;
  split_documents _ _ _ _ := Raise offline;
  warm_up _ _ := Raise offline;
  embed_documents _ _ _ := Raise offline;
  write_documents _ _ _ := Raise offline;
  embed_text _ _ _ := Raise offline;
  embedding_retrieval _ _ := Raise offline;
  generate _ _ _ := Raise offline
|}.

Definition sample_world : World :=
  {| store := {[ "d1" := web_doc; "d2" := pdf_doc ]}; llm_calls := 0 |}.
(** * Theorems *)

(** ** Dictionaries *)

Section Lookup.
Context {V : Type}.
Implicit Types (d : gmap string V) (key : string).

Lemma py_in_true d key v : d !! key = Some v → py_in key d = true.
Proof. intros Hk. unfold py_in. rewrite Hk. by apply bool_decide_eq_true_2. Qed.

Lemma py_in_false d key : d !! key = None → py_in key d = false.
Proof.
  intros Hk. unfold py_in. rewrite Hk.
  apply bool_decide_eq_false_2. by intros [? ?].
Qed.

Lemma py_getitem_Some d key v : d !! key = Some v → py_getitem d key = Ok v.
Proof. intros Hk. unfold py_getitem. by rewrite Hk. Qed.
End Lookup.

(** ** Source extraction *)

(** C3: a document whose metadata lacks the expected source field makes
    [extract_source] raise a [KeyError] (no default value is substituted),
    and a document that has the field gets that field back.  The expected
    field is ['url'] in the MLflow notebook and ['url'] or ['file_path'] in
    the arbitrary-sources notebook. *)
Theorem extract_source_missing_field_raises (doc : Document) :
  (meta doc !! "url" = None →
     MlflowDocuments.extract_source doc
     = Raise (KeyError "'url' key does not exist in the metadata"))
  ∧ (∀ v, meta doc !! "url" = Some v →
     MlflowDocuments.extract_source doc = Ok v)
  ∧ (meta doc !! "url" = None → meta doc !! "file_path" = None →
     ArbitrarySources.extract_source doc
     = Raise (KeyError "Neither 'url' nor 'file_path' exists in the metadata"))
  ∧ (∀ v, meta doc !! "url" = Some v →
     ArbitrarySources.extract_source doc = Ok v)
  ∧ (∀ v, meta doc !! "url" = None → meta doc !! "file_path" = Some v →
     ArbitrarySources.extract_source doc = Ok v).
Proof.
  unfold MlflowDocuments.extract_source, ArbitrarySources.extract_source.
  repeat split.
  - intros Hu. by rewrite (py_in_false _ _ Hu).
  - intros v Hu. rewrite (py_in_true _ _ _ Hu). by apply py_getitem_Some.
  - intros Hu Hf. by rewrite (py_in_false _ _ Hu), (py_in_false _ _ Hf).
  - intros v Hu. rewrite (py_in_true _ _ _ Hu). by apply py_getitem_Some.
  - intros v Hu Hf. rewrite (py_in_false _ _ Hu), (py_in_true _ _ _ Hf).
    by apply py_getitem_Some.
Qed.

Lemma extract_source_missing_field_raises_witness :
  MlflowDocuments.extract_source bare_doc
  = Raise (KeyError "'url' key does not exist in the metadata")
  ∧ MlflowDocuments.extract_source web_doc
    = Ok (PyStr "https://medium.com/@ssafarveisi/stream-processing-using-apache-flink-70c5a990801a")
  ∧ ArbitrarySources.extract_source bare_doc
    = Raise (KeyError "Neither 'url' nor 'file_path' exists in the metadata")
  ∧ ArbitrarySources.extract_source pdf_doc = Ok (PyStr "artifactory_for_poetry.pdf").
Proof.
  split; [|split; [|split]].
  - apply (proj1 (extract_source_missing_field_raises bare_doc)). reflexivity.
  - apply (proj1 (proj2 (extract_source_missing_field_raises web_doc))). reflexivity.
  - apply (proj1 (proj2 (proj2 (extract_source_missing_field_raises bare_doc))));
      reflexivity.
  - apply (proj2 (proj2 (proj2 (proj2 (extract_source_missing_field_raises pdf_doc)))));
      reflexivity.
Defined.

(** C10: when the metadata holds both ['url'] and ['file_path'],
    [extract_source] of the arbitrary-sources notebook returns the ['url']
    value; the ['file_path'] value is returned only when there is no
    ['url'] key. *)
Theorem extract_source_url_precedes_file_path (doc : Document) (u f : PyVal) :
  meta doc !! "url" = Some u →
  meta doc !! "file_path" = Some f →
  ArbitrarySources.extract_source doc = Ok u
  ∧ (∀ doc' : Document,
       meta doc' !! "file_path" = Some f →
       (meta doc' !! "url" = None → ArbitrarySources.extract_source doc' = Ok f)
       ∧ (∀ u', meta doc' !! "url" = Some u' →
            ArbitrarySources.extract_source doc' = Ok u')).
Proof.
  intros Hu Hf. unfold ArbitrarySources.extract_source. split.
  - rewrite (py_in_true _ _ _ Hu). by apply py_getitem_Some.
  - intros doc' Hf'. split.
    + intros Hnone. rewrite (py_in_false _ _ Hnone), (py_in_true _ _ _ Hf').
      by apply py_getitem_Some.
    + intros u' Hu'. rewrite (py_in_true _ _ _ Hu'). by apply py_getitem_Some.
Qed.

Lemma extract_source_url_precedes_file_path_witness :
  ArbitrarySources.extract_source both_doc
  = Ok (PyStr "https://mlflow.org/docs/latest/index.html").
Proof.
  apply (extract_source_url_precedes_file_path both_doc
           (PyStr "https://mlflow.org/docs/latest/index.html") (PyStr "index.pdf"));
    reflexivity.
Defined.

(** ** Pipeline graphs *)

(** Settles a decidable statement about concrete data by evaluation. *)
Ltac by_computation := apply (bool_decide_unpack _); by vm_compute.

Lemma path_rank_lt p a b : ranked p → path p a b → rank p a < rank p b.
Proof.
  intros Hr Hp.
  induction Hp as [a b (c & Hc & <- & <-) | a b c' (c & Hc & <- & <-) _ IH].
  - by apply (proj1 (Forall_forall _ _) Hr).
  - etrans; [|apply IH]. by apply (proj1 (Forall_forall _ _) Hr).
Qed.

(** Connections that all lead from an earlier to a later component close
    no cycle. *)
Lemma ranked_acyclic p : ranked p → acyclic p.
Proof. intros Hr v Hp. apply (path_rank_lt _ _ _ Hr) in Hp. lia. Qed.

Lemma check_required_ports_sound P p :
  check_required_ports P p → each_required_port P p.
Proof.
  intros Hall name comp s Hin Hns Hs Hreq.
  apply (proj1 (Forall_forall _ _) Hall (name, comp) Hin) in Hns.
  by apply (proj1 (Forall_forall _ _) Hns s Hs).
Qed.

Lemma arbitrary_indexing_built :
  ArbitrarySources.indexing_pipeline = Ok (built ArbitrarySources.indexing_pipeline).
Proof. by vm_compute. Qed.

Lemma arbitrary_rag_built :
  ArbitrarySources.create_rag_pipeline = Ok ArbitrarySources.rag_pipeline.
Proof. by vm_compute. Qed.

Lemma mlflow_indexing_built split_length :
  MlflowDocuments.indexing_pipeline split_length
  = Ok (built (MlflowDocuments.indexing_pipeline split_length)).
Proof. by vm_compute. Qed.

Lemma mlflow_rag_built :
  MlflowDocuments.create_rag_pipeline = Ok MlflowDocuments.rag_pipeline.
Proof. by vm_compute. Qed.

Lemma arbitrary_indexing_acyclic : acyclic (built ArbitrarySources.indexing_pipeline).
Proof. apply ranked_acyclic. by_computation. Qed.

Lemma arbitrary_rag_acyclic : acyclic ArbitrarySources.rag_pipeline.
Proof. apply ranked_acyclic. by_computation. Qed.

Lemma mlflow_indexing_acyclic split_length :
  acyclic (built (MlflowDocuments.indexing_pipeline split_length)).
Proof. apply ranked_acyclic. by_computation. Qed.

Lemma mlflow_rag_acyclic : acyclic MlflowDocuments.rag_pipeline.
Proof. apply ranked_acyclic. by_computation. Qed.

(** The joiner of the arbitrary-sources ingestion pipeline is fed by both
    converters: the invariant as worded fails on that graph. *)
Lemma arbitrary_indexing_joiner_two_producers :
  ¬ graph_invariant (built ArbitrarySources.indexing_pipeline).
Proof.
  intros [_ Hports].
  specialize (Hports "document_joiner" DocumentJoiner
                (variadic_input "documents" TListDocument)).
  assert (Hone : one_producer (built ArbitrarySources.indexing_pipeline)
                   "document_joiner" (variadic_input "documents" TListDocument)).
  { apply Hports.
    - vm_compute. repeat constructor.
    - by_computation.
    - vm_compute. repeat constructor.
    - reflexivity. }
  vm_compute in Hone. discriminate Hone.
Qed.

(** The answer builder's query has no producer in the graph: the invariant
    as worded fails on the query pipelines too. *)
Lemma rag_query_port_no_producer :
  ¬ graph_invariant ArbitrarySources.rag_pipeline
  ∧ ¬ graph_invariant MlflowDocuments.rag_pipeline.
Proof.
  split; intros [_ Hports];
    specialize (Hports "answer_builder" AnswerBuilder (required_input "query" TStr)).
  - assert (Hone : one_producer ArbitrarySources.rag_pipeline
                     "answer_builder" (required_input "query" TStr)).
    { apply Hports.
      - vm_compute. repeat constructor.
      - by_computation.
      - vm_compute. repeat constructor.
      - reflexivity. }
    vm_compute in Hone. discriminate Hone.
  - assert (Hone : one_producer MlflowDocuments.rag_pipeline
                     "answer_builder" (required_input "query" TStr)).
    { apply Hports.
      - vm_compute. repeat constructor.
      - by_computation.
      - vm_compute. repeat constructor.
      - reflexivity. }
    vm_compute in Hone. discriminate Hone.
Qed.

(** C8 (amended): every pipeline graph the notebooks construct is acyclic,
    and every required input port of a non-source node has exactly one
    connected producer, with two exceptions: the joiner's variadic
    [documents] port of the arbitrary-sources ingestion pipeline has two
    producers, and the answer builder's [query] port of the query pipelines
    has none and is filled from the data handed to [run].  The MLflow
    ingestion pipeline satisfies the invariant without exception. *)
Theorem notebook_graphs_acyclic_ports_fed :
  (ArbitrarySources.indexing_pipeline = Ok (built ArbitrarySources.indexing_pipeline)
   ∧ fed_graph_invariant (built ArbitrarySources.indexing_pipeline)
       ArbitrarySources.indexing_inputs
   ∧ producers (built ArbitrarySources.indexing_pipeline) "document_joiner" "documents" = 2)
  ∧ (ArbitrarySources.create_rag_pipeline = Ok ArbitrarySources.rag_pipeline
     ∧ (∀ question,
          fed_graph_invariant ArbitrarySources.rag_pipeline (question_inputs question))
     ∧ producers ArbitrarySources.rag_pipeline "answer_builder" "query" = 0)
  ∧ (∀ split_length,
       MlflowDocuments.indexing_pipeline split_length
       = Ok (built (MlflowDocuments.indexing_pipeline split_length))
       ∧ graph_invariant (built (MlflowDocuments.indexing_pipeline split_length)))
  ∧ (MlflowDocuments.create_rag_pipeline = Ok MlflowDocuments.rag_pipeline
     ∧ (∀ question,
          fed_graph_invariant MlflowDocuments.rag_pipeline (question_inputs question))
     ∧ producers MlflowDocuments.rag_pipeline "answer_builder" "query" = 0).
Proof.
  split; [|split; [|split]].
  - split; [apply arbitrary_indexing_built|]. split; [|reflexivity].
    split; [apply arbitrary_indexing_acyclic|].
    apply check_required_ports_sound. by_computation.
  - split; [apply arbitrary_rag_built|]. split; [|reflexivity].
    intros question. split; [apply arbitrary_rag_acyclic|].
    apply check_required_ports_sound. by_computation.
  - intros split_length. split; [apply mlflow_indexing_built|].
    split; [apply mlflow_indexing_acyclic|].
    apply check_required_ports_sound. by_computation.
  - split; [apply mlflow_rag_built|]. split; [|reflexivity].
    intros question. split; [apply mlflow_rag_acyclic|].
    apply check_required_ports_sound. by_computation.
Qed.

(** ** Running the query pipeline *)

(** The graph each notebook wires computes the straight-line program. *)
Lemma arbitrary_rag_run question :
  run ArbitrarySources.rag_pipeline (question_inputs question)
  = answer_question "BAAI/bge-small-en-v1.5" "cuda:0"
      ArbitrarySources.prompt_template "gpt-4o-mini" question.
Proof. vm_compute. reflexivity. Qed.

Lemma mlflow_rag_run question :
  run MlflowDocuments.rag_pipeline (question_inputs question)
  = answer_question "BAAI/bge-large-en-v1.5" "cuda:0"
      MlflowDocuments.prompt_template "gpt-4o-mini" question.
Proof. vm_compute. reflexivity. Qed.

Lemma zip_with_projections {A B C} (f : A → B → C) (l : list (A * B)) :
  zip_with f l.*1 l.*2 = (λ c, f c.1 c.2) <$> l.
Proof. induction l as [|c l IH]; [done|]. rewrite !fmap_cons. simpl. by rewrite IH. Qed.

Lemma build_answers_completions question docs
    (completions : list (string * gmap string PyVal)) :
  build_answers question completions.*1 (Some completions.*2) (Some docs)
  = answer_of question docs <$> completions.
Proof.
  exact (zip_with_projections
           (λ reply m, {| data := reply; query := question;
                          documents := docs; answer_meta := m |})
           completions).
Qed.

(** *** Programs that do not write *)

Lemma read_only_bind {A B} (m : Prog A) (f : A → Prog B) :
  ReadOnly m → (∀ a, ReadOnly (f a)) → ReadOnly (m ≫= f).
Proof.
  intros Hm Hf. induction Hm as [a|e|X op k Hop _ IH]; simpl.
  - apply Hf.
  - apply read_only_fail.
  - apply read_only_call; [done|]. intros x. apply IH.
Qed.

Lemma read_only_call_op {X} (op : Op X) : writes_store op = false → ReadOnly (call op).
Proof. intros Hop. apply read_only_call; [done|]. intros x. apply read_only_ret. Qed.

Lemma required_read_only {A} ins name (proj : Value → option A) :
  ReadOnly (required ins name proj).
Proof.
  unfold required. destruct (input ins name) as [v|]; [|apply read_only_fail].
  destruct (proj v); [apply read_only_ret|apply read_only_fail].
Qed.

Lemma optional_read_only {A} ins name (proj : Value → option A) :
  ReadOnly (optional ins name proj).
Proof.
  unfold optional. destruct (input ins name) as [v|]; [|apply read_only_ret].
  destruct (proj v); [apply read_only_ret|apply read_only_fail].
Qed.

Lemma variadic_read_only {A} ins name (proj : Value → option A) :
  ReadOnly (variadic ins name proj).
Proof.
  unfold variadic. destruct (ins !! name) as [[|v vs]|]; try apply read_only_fail.
  destruct (mapM proj (v :: vs)); [apply read_only_ret|apply read_only_fail].
Qed.

Create HintDb read_only.

#[local] Hint Resolve required_read_only optional_read_only variadic_read_only
  read_only_ret read_only_fail : read_only.

(** Breaks a sequence of binds into its steps. *)
Ltac read_only_steps :=
  repeat first
    [ apply read_only_ret
    | apply read_only_call_op; reflexivity
    | apply read_only_bind; [solve [auto with read_only] | intros ?]
    | apply read_only_bind; [apply read_only_call_op; reflexivity | intros ?] ].

(** Every component but the writer leaves the store alone. *)
Lemma run_component_read_only c ins :
  is_writer c = false → ReadOnly (run_component c ins).
Proof.
  intros Hc. destruct c; try discriminate Hc;
    unfold run_component, retrieve; read_only_steps.
Qed.

Lemma run_loop_step fuel p data nc waiting produced :
  run_loop (S fuel) p data (nc :: waiting) produced
  = match list_find (λ nc', ready p (nc :: waiting) nc'.1 = true) (nc :: waiting) with
    | None => Fail (PipelineRuntimeError "no component can run: the graph has a cycle")
    | Some (_, (name, c)) =>
        outs ← run_component c (gather p data produced name);
        run_loop fuel p data (filter (λ nc', nc'.1 ≠ name) (nc :: waiting))
                 (<[name := outs]> produced)
    end.
Proof. reflexivity. Qed.

Lemma run_loop_read_only fuel p data waiting produced :
  Forall (λ nc, is_writer nc.2 = false) waiting →
  ReadOnly (run_loop fuel p data waiting produced).
Proof.
  revert waiting produced.
  induction fuel as [|fuel IH]; intros waiting produced Hfree;
    destruct waiting as [|nc waiting'].
  - exact (read_only_ret _).
  - exact (read_only_fail _).
  - exact (read_only_ret _).
  - rewrite run_loop_step.
    destruct (list_find _ _) as [[i [name c]]|] eqn:Hfind; [|apply read_only_fail].
    apply list_find_Some in Hfind as (Hlook & _ & _).
    apply read_only_bind.
    + apply run_component_read_only.
      apply (proj1 (Forall_forall _ _) Hfree (name, c)).
      by apply list_elem_of_lookup_2 in Hlook.
    + intros outs. apply IH. apply Forall_forall. intros nc' Hin.
      apply list_elem_of_filter in Hin as [_ Hin].
      by apply (proj1 (Forall_forall _ _) Hfree).
Qed.

(** A pipeline without a writer runs without writing. *)
Lemma run_read_only p data : writer_free p → ReadOnly (run p data).
Proof.
  intros Hfree. unfold run. case_bool_decide; [|apply read_only_fail].
  apply read_only_bind; [by apply run_loop_read_only|].
  intros produced. apply read_only_ret.
Qed.

#[global] Instance writer_free_dec p : Decision (writer_free p).
Proof. unfold writer_free. apply _. Defined.

Lemma arbitrary_rag_writer_free : writer_free ArbitrarySources.rag_pipeline.
Proof. by_computation. Qed.

Lemma mlflow_rag_writer_free : writer_free MlflowDocuments.rag_pipeline.
Proof. by_computation. Qed.

Section Runs.
Context `{Library}.

Lemma bind_Ok {A B} (m : M A) (f : A → M B) w a w' :
  m w = (Ok a, w') → (m ≫= f) w = f a w'.
Proof. intros Hm. unfold mbind, M_bind. by rewrite Hm. Qed.

Lemma bind_Raise {A B} (m : M A) (f : A → M B) w e w' :
  m w = (Raise e, w') → (m ≫= f) w = (Raise e, w').
Proof. intros Hm. unfold mbind, M_bind. by rewrite Hm. Qed.

Lemma bind_store {A B} (m : M A) (f : A → M B) w :
  store (m w).2 = store w →
  (∀ a w', store (f a w').2 = store w') →
  store ((m ≫= f) w).2 = store w.
Proof.
  intros Hm Hf. unfold mbind, M_bind.
  destruct (m w) as [[a|e] w'] eqn:Hmw; simpl in *.
  - by rewrite Hf.
  - done.
Qed.

Lemma lift_store {A} (r : result A) w : store (lift r w).2 = store w.
Proof. done. Qed.

(** Only a write request changes the store. *)
Lemma perform_read_only {X} (op : Op X) w :
  writes_store op = false → store (perform op w).2 = store w.
Proof. destruct op; simpl; try done. Qed.

Lemma exec_read_only {A} (m : Prog A) :
  ReadOnly m → ∀ w, store (exec m w).2 = store w.
Proof.
  induction 1 as [a|e|X op k Hop _ IH]; intros w; [done|done|].
  simpl. apply bind_store; [by apply perform_read_only|done].
Qed.

Lemma exec_answer_question embed_model device template llm_model question w
    e docs completions :
  embed_text embed_model device question = Ok e →
  embedding_retrieval (store w) e = Ok docs →
  generate (llm_calls w) llm_model
    (render template
       {[ "question" := VStr question; "documents" := VListDocument docs ]})
  = Ok completions →
  exec (answer_question embed_model device template llm_model question) w
  = (Ok {[ "answer_builder" :=
             {[ "answers" := VListAnswer (answer_of question docs <$> completions) ]} ]},
     {| store := store w; llm_calls := S (llm_calls w) |}).
Proof.
  intros He Hdocs Hgen. unfold answer_question. simpl.
  unfold mbind, M_bind, lift, get_store, next_llm_call. simpl.
  rewrite He, Hdocs. simpl. rewrite Hgen. simpl.
  by rewrite build_answers_completions.
Qed.

End Runs.

Section QueryClaims.
Context `{Library}.

(** C7: running the query pipeline never modifies the vector store.  For
    every question and every state, whatever the services answer and
    whether or not the run raises, the store (the documents with their
    embeddings) after the run is the store before it; the same holds for
    the notebooks' functions that run the pipeline. *)
Theorem query_run_leaves_store_unchanged (question : string) (w : World) :
  store (exec (run ArbitrarySources.rag_pipeline (question_inputs question)) w).2 = store w
  ∧ store (exec (run MlflowDocuments.rag_pipeline (question_inputs question)) w).2 = store w
  ∧ store (ArbitrarySources.retrieve_doc_sources question w).2 = store w
  ∧ store (MlflowDocuments.retrieve_doc_sources question w).2 = store w
  ∧ store (MlflowDocuments.qa question w).2 = store w.
Proof.
  assert (Harb : ∀ w', store (exec (run ArbitrarySources.rag_pipeline
                                     (question_inputs question)) w').2 = store w').
  { intros w'. apply exec_read_only, run_read_only, arbitrary_rag_writer_free. }
  assert (Hml : ∀ w', store (exec (run MlflowDocuments.rag_pipeline
                                    (question_inputs question)) w').2 = store w').
  { intros w'. apply exec_read_only, run_read_only, mlflow_rag_writer_free. }
  split; [apply Harb|]. split; [apply Hml|].
  unfold ArbitrarySources.retrieve_doc_sources, MlflowDocuments.retrieve_doc_sources,
    MlflowDocuments.qa.
  split; [|split].
  - apply bind_store; [apply Harb|]. intros response w1.
    apply bind_store; [apply lift_store|]. intros answer w2. apply lift_store.
  - apply bind_store; [apply Hml|]. intros response w1.
    apply bind_store; [apply lift_store|]. intros answer w2. apply lift_store.
  - apply bind_store; [apply Hml|]. intros response w1.
    apply bind_store; [apply lift_store|]. by intros answer w2.
Qed.

(** C5: for every question, when the embedder, the store's query and the
    generator answer, the query pipeline returns one answer object per raw
    model reply; each packages that reply, the question, exactly the
    documents the retriever returned for the question (the very list the
    prompt was rendered over) and the reply's metadata.  [qa] hands back
    the first reply and the contents of those documents. *)
Theorem query_answer_packages_reply_documents_meta (question : string) (w : World)
    (e : list Q) (docs : list Document)
    (completions : list (string * gmap string PyVal)) :
  (embed_text "BAAI/bge-small-en-v1.5" "cuda:0" question = Ok e →
   embedding_retrieval (store w) e = Ok docs →
   generate (llm_calls w) "gpt-4o-mini"
     (render ArbitrarySources.prompt_template
        {[ "question" := VStr question; "documents" := VListDocument docs ]})
   = Ok completions →
   exec (run ArbitrarySources.rag_pipeline (question_inputs question)) w
   = (Ok {[ "answer_builder" :=
              {[ "answers" := VListAnswer (answer_of question docs <$> completions) ]} ]},
      {| store := store w; llm_calls := S (llm_calls w) |}))
  ∧ (embed_text "BAAI/bge-large-en-v1.5" "cuda:0" question = Ok e →
     embedding_retrieval (store w) e = Ok docs →
     generate (llm_calls w) "gpt-4o-mini"
       (render MlflowDocuments.prompt_template
          {[ "question" := VStr question; "documents" := VListDocument docs ]})
     = Ok completions →
     exec (run MlflowDocuments.rag_pipeline (question_inputs question)) w
     = (Ok {[ "answer_builder" :=
                {[ "answers" := VListAnswer (answer_of question docs <$> completions) ]} ]},
        {| store := store w; llm_calls := S (llm_calls w) |})
     ∧ ∀ reply reply_meta others,
         completions = (reply, reply_meta) :: others →
         MlflowDocuments.qa question w
         = (Ok {[ "result" := VStr reply;
                  "source_documents" := VListStr (content <$> docs) ]},
            {| store := store w; llm_calls := S (llm_calls w) |})).
Proof.
  split.
  - intros He Hdocs Hgen. rewrite arbitrary_rag_run.
    by apply (exec_answer_question _ _ _ _ _ _ e).
  - intros He Hdocs Hgen.
    assert (Hrun : exec (run MlflowDocuments.rag_pipeline (question_inputs question)) w
                   = (Ok {[ "answer_builder" :=
                              {[ "answers" :=
                                   VListAnswer (answer_of question docs <$> completions) ]} ]},
                      {| store := store w; llm_calls := S (llm_calls w) |})).
    { rewrite mlflow_rag_run. by apply (exec_answer_question _ _ _ _ _ _ e). }
    split; [exact Hrun|].
    intros reply reply_meta others ->.
    unfold MlflowDocuments.qa. rewrite (bind_Ok _ _ _ _ _ Hrun).
    vm_compute. reflexivity.
Qed.

End QueryClaims.

Lemma query_answer_packages_reply_documents_meta_witness :
  @exec sample_library _
    (run ArbitrarySources.rag_pipeline
       (question_inputs "Which version of Stackable did the author use?"))
    sample_world
  = (Ok {[ "answer_builder" :=
             {[ "answers" :=
                  VListAnswer
                    [ {| data := "reply 0";
                         query := "Which version of Stackable did the author use?";
                         documents := [web_doc; pdf_doc];
                         answer_meta := {[ "model" := PyStr "gpt-4o-mini";
                                           "index" := PyInt 0 ]} |} ] ]} ]},
     {| store := store sample_world; llm_calls := 1 |}).
Proof.
  pose proof (proj1 (@query_answer_packages_reply_documents_meta sample_library
                       "Which version of Stackable did the author use?" sample_world
                       [] [web_doc; pdf_doc]
                       [ ("reply 0", {[ "model" := PyStr "gpt-4o-mini";
                                        "index" := PyInt 0 ]}) ])) as Hanswer.
  apply Hanswer; vm_compute; reflexivity.
Defined.

(** ** Re-running the ingestion *)

Lemma arbitrary_indexing_run :
  run (built ArbitrarySources.indexing_pipeline) ArbitrarySources.indexing_inputs
  = ingest_sources ArbitrarySources.urls ["artifactory_for_poetry.pdf"] 256
      "BAAI/bge-small-en-v1.5".
Proof. vm_compute. reflexivity. Qed.

Lemma mlflow_indexing_run urls split_length :
  run (built (MlflowDocuments.indexing_pipeline split_length))
      {[ "fetcher" := {[ "urls" := VListStr urls ]} ]}
  = ingest_pages urls split_length "BAAI/bge-large-en-v1.5".
Proof. vm_compute. reflexivity. Qed.

(** *** The write itself *)

Lemma skip_write_present doc docs s :
  is_Some (s !! doc_id doc) → skip_write (doc :: docs) s = skip_write docs s.
Proof. intros [d Hd]. simpl. by rewrite Hd. Qed.

Lemma skip_write_absent doc docs s :
  s !! doc_id doc = None →
  skip_write (doc :: docs) s
  = ((skip_write docs (<[doc_id doc := doc]> s)).1,
     ((skip_write docs (<[doc_id doc := doc]> s)).2 + 1)%Z).
Proof. intros Hd. simpl. rewrite Hd. by destruct (skip_write _ _). Qed.

(** What the store holds stays. *)
Lemma skip_write_keeps docs s i :
  is_Some (s !! i) → is_Some ((skip_write docs s).1 !! i).
Proof.
  revert s. induction docs as [|doc docs IH]; intros s Hi; [done|].
  destruct (s !! doc_id doc) as [d|] eqn:Hd.
  - rewrite skip_write_present by eauto. by apply IH.
  - rewrite skip_write_absent by done. simpl. apply IH.
    destruct (decide (doc_id doc = i)) as [->|Hne].
    + rewrite lookup_insert_eq. eauto.
    + by rewrite lookup_insert_ne.
Qed.

(** Every document handed to the writer is in the store afterwards. *)
Lemma skip_write_stores docs s doc :
  doc ∈ docs → is_Some ((skip_write docs s).1 !! doc_id doc).
Proof.
  revert s. induction docs as [|doc' docs IH]; intros s Hin.
  - by apply elem_of_nil in Hin.
  - apply elem_of_cons in Hin as [->|Hin].
    + destruct (s !! doc_id doc') as [d|] eqn:Hd.
      * rewrite skip_write_present by eauto. apply skip_write_keeps. eauto.
      * rewrite skip_write_absent by done. simpl. apply skip_write_keeps.
        rewrite lookup_insert_eq. eauto.
    + destruct (s !! doc_id doc') as [d|] eqn:Hd.
      * rewrite skip_write_present by eauto. by apply IH.
      * rewrite skip_write_absent by done. simpl. by apply IH.
Qed.

(** Documents the store already holds are all skipped. *)
Lemma skip_write_all_held docs s :
  (∀ doc, doc ∈ docs → is_Some (s !! doc_id doc)) → skip_write docs s = (s, 0%Z).
Proof.
  induction docs as [|doc docs IH]; intros Hheld; [done|].
  rewrite skip_write_present by (apply Hheld; left).
  apply IH. intros doc' Hin. apply Hheld. by right.
Qed.

Lemma skip_write_again docs s :
  skip_write docs (skip_write docs s).1 = ((skip_write docs s).1, 0%Z).
Proof. apply skip_write_all_held. intros doc Hin. by apply skip_write_stores. Qed.

Lemma difference_old (i : string) (X D : gset string) :
  i ∈ D → ({[i]} ∪ X) ∖ D = X ∖ D.
Proof.
  intros Hold. apply set_eq. intros j.
  rewrite !elem_of_difference, elem_of_union, elem_of_singleton.
  split; [|tauto]. intros [[->|Hj] Hn]; [done|tauto].
Qed.

Lemma size_difference_new (i : string) (X D : gset string) :
  i ∉ D → size (({[i]} ∪ X) ∖ D) = S (size (X ∖ ({[i]} ∪ D))).
Proof.
  intros Hnew.
  assert (Hsplit : ({[i]} ∪ X) ∖ D = {[i]} ∪ X ∖ ({[i]} ∪ D)).
  { apply set_eq. intros j.
    rewrite elem_of_union, !elem_of_difference, !elem_of_union, elem_of_singleton.
    destruct (decide (j = i)) as [->|Hne]; tauto. }
  rewrite Hsplit, size_union, size_singleton; [done|].
  apply disjoint_singleton_l.
  rewrite elem_of_difference, elem_of_union, elem_of_singleton. tauto.
Qed.

(** The number written is the number of distinct identifiers that are new
    to the store. *)
Lemma skip_write_written docs s :
  (skip_write docs s).2
  = Z.of_nat (size (list_to_set (doc_id <$> docs) ∖ dom s : gset string)).
Proof.
  revert s. induction docs as [|doc docs IH]; intros s.
  - by rewrite fmap_nil, list_to_set_nil, empty_difference_L, size_empty.
  - rewrite fmap_cons, list_to_set_cons.
    destruct (s !! doc_id doc) as [d|] eqn:Hd.
    + rewrite skip_write_present by eauto. rewrite IH.
      rewrite difference_old; [done|]. apply elem_of_dom. eauto.
    + rewrite skip_write_absent by done. cbn [fst snd]. rewrite IH, dom_insert_L.
      rewrite size_difference_new; [lia|]. by apply not_elem_of_dom.
Qed.

(** Each document written adds one to the count. *)
Lemma skip_write_count docs s :
  count_documents (skip_write docs s).1
  = (count_documents s + (skip_write docs s).2)%Z.
Proof.
  unfold count_documents. revert s.
  induction docs as [|doc docs IH]; intros s; [simpl; lia|].
  destruct (s !! doc_id doc) as [d|] eqn:Hd.
  - rewrite skip_write_present by eauto. apply IH.
  - rewrite skip_write_absent by done. simpl. rewrite IH.
    rewrite map_size_insert_None by done. lia.
Qed.

(** Under "skip" a stored document is never replaced. *)
Lemma skip_write_preserves docs s i d :
  s !! i = Some d → (skip_write docs s).1 !! i = Some d.
Proof.
  revert s. induction docs as [|doc docs IH]; intros s Hi; [done|].
  destruct (s !! doc_id doc) as [d'|] eqn:Hd.
  - rewrite skip_write_present by eauto. by apply IH.
  - rewrite skip_write_absent by done. simpl. apply IH.
    rewrite lookup_insert_ne; [done|]. intros Heq. congruence.
Qed.

(** A store that files documents under their identifiers still does after
    a write. *)
Lemma skip_write_filed docs s : filed s → filed (skip_write docs s).1.
Proof.
  revert s. induction docs as [|doc docs IH]; intros s Hs; [done|].
  destruct (s !! doc_id doc) as [d|] eqn:Hd.
  - rewrite skip_write_present by eauto. by apply IH.
  - rewrite skip_write_absent by done. simpl. apply IH.
    by apply map_Forall_insert_2.
Qed.

(** What the store holds after a write was there before or was handed to
    the writer. *)
Lemma skip_write_from docs s i d :
  (skip_write docs s).1 !! i = Some d → s !! i = Some d ∨ d ∈ docs.
Proof.
  revert s. induction docs as [|doc docs IH]; intros s Hi; [by left|].
  destruct (s !! doc_id doc) as [d'|] eqn:Hd.
  - rewrite skip_write_present in Hi by eauto.
    destruct (IH _ Hi) as [Hs|Hin]; [by left|right; by right].
  - rewrite skip_write_absent in Hi by done. simpl in Hi.
    destruct (IH _ Hi) as [Hs|Hin]; [|right; by right].
    destruct (decide (doc_id doc = i)) as [<-|Hne].
    + rewrite lookup_insert_eq in Hs. injection Hs as <-. right. by left.
    + rewrite lookup_insert_ne in Hs by done. by left.
Qed.

Lemma stored_lookup (s : gmap string Document) i d : s !! i = Some d → d ∈ stored s.
Proof.
  intros Hi. unfold stored. apply list_elem_of_fmap. exists (i, d).
  split; [done|]. by apply elem_of_map_to_list.
Qed.

Lemma content_hashed_same ds d d' :
  content_hashed ds → d ∈ ds → d' ∈ ds →
  doc_id d = doc_id d' ↔ content d = content d'.
Proof.
  intros Hall Hd Hd'.
  pose proof (proj1 (Forall_forall _ _) Hall d Hd) as Hrow.
  exact (proj1 (Forall_forall _ _) Hrow d' Hd').
Qed.

(** With identifiers that are content hashes, every content handed to the
    writer is held afterwards, under one identifier only. *)
Lemma skip_write_held_once docs s doc :
  filed s → content_hashed (stored s ++ docs) → doc ∈ docs →
  held_once (skip_write docs s).1 (content doc).
Proof.
  intros Hfiled Hhash Hdoc.
  assert (Hamong : ∀ j d, (skip_write docs s).1 !! j = Some d → d ∈ (stored s ++ docs)%list).
  { intros j d Hj. apply elem_of_app.
    destruct (skip_write_from _ _ _ _ Hj) as [Hs|Hin]; [left|by right].
    by apply (stored_lookup _ j). }
  assert (Hdoc' : doc ∈ (stored s ++ docs)%list) by (apply elem_of_app; by right).
  pose proof (skip_write_filed docs s Hfiled) as Hfiled'.
  destruct (skip_write_stores docs s doc Hdoc) as [d Hd].
  exists (doc_id doc). split.
  - exists d. split; [done|].
    apply (content_hashed_same _ _ _ Hhash (Hamong _ _ Hd) Hdoc').
    exact (Hfiled' _ _ Hd).
  - intros j d' Hj Hcontent. rewrite <- (Hfiled' _ _ Hj).
    by apply (content_hashed_same _ _ _ Hhash (Hamong _ _ Hj) Hdoc').
Qed.

Section Ingestion.
Context `{Library}.

(** The world an ingestion leaves behind when the writer stored [s]. *)
Lemma exec_ingest_sources_outcome urls pdfs split_length embed_model w :
  exec (ingest_sources urls pdfs split_length embed_model) w
  = match piped_sources urls pdfs split_length embed_model with
    | Raise exc => (Raise exc, w)
    | Ok docs =>
        match write_documents SKIP docs (store w) with
        | Raise exc => (Raise exc, w)
        | Ok (s, written) =>
            (Ok {[ "writer" := {[ "documents_written" := VInt written ]} ]},
             {| store := s; llm_calls := llm_calls w |})
        end
    end.
Proof.
  unfold ingest_sources, piped_sources. simpl.
  unfold mbind, M_bind, result_bind, lift, get_store, put_store. simpl.
  destruct (fetch_streams urls) as [streams|]; [simpl|done].
  destruct (html_to_documents _) as [html_docs|]; [simpl|done].
  destruct (pdf_to_documents _) as [pdf_docs|]; [simpl|done].
  destruct (join_documents _) as [joined|]; [simpl|done].
  destruct (clean_documents _) as [cleaned|]; [simpl|done].
  destruct (split_documents _ _ _ _) as [chunks|]; [simpl|done].
  destruct (embed_documents _ _ _) as [docs|]; [simpl|done].
  by destruct (write_documents SKIP docs (store w)) as [[s written]|].
Qed.

Lemma exec_ingest_pages_outcome urls split_length embed_model w :
  exec (ingest_pages urls split_length embed_model) w
  = match piped_pages urls split_length embed_model with
    | Raise exc => (Raise exc, w)
    | Ok docs =>
        match write_documents SKIP docs (store w) with
        | Raise exc => (Raise exc, w)
        | Ok (s, written) =>
            (Ok {[ "writer" := {[ "documents_written" := VInt written ]} ]},
             {| store := s; llm_calls := llm_calls w |})
        end
    end.
Proof.
  unfold ingest_pages, piped_pages. simpl.
  unfold mbind, M_bind, result_bind, lift, get_store, put_store. simpl.
  destruct (fetch_streams urls) as [streams|]; [simpl|done].
  destruct (html_to_documents _) as [html_docs|]; [simpl|done].
  destruct (clean_documents _) as [cleaned|]; [simpl|done].
  destruct (split_documents _ _ _ _) as [chunks|]; [simpl|done].
  destruct (embed_documents _ _ _) as [docs|]; [simpl|done].
  by destruct (write_documents SKIP docs (store w)) as [[s written]|].
Qed.

Lemma exec_warm_up model device w :
  exec (call (WarmUp model device)) w = (warm_up model device, w).
Proof. simpl. unfold mbind, M_bind, lift. by destruct (warm_up model device) as [[]|]. Qed.

Lemma prepared_sources_piped urls pdfs split_length embed_model docs :
  prepared_sources urls pdfs split_length embed_model = Ok docs →
  piped_sources urls pdfs split_length embed_model = Ok docs.
Proof. unfold prepared_sources. by destruct (warm_up _ _) as [[]|]. Qed.

Lemma prepared_pages_piped urls split_length embed_model docs :
  prepared_pages urls split_length embed_model = Ok docs →
  piped_pages urls split_length embed_model = Ok docs.
Proof. unfold prepared_pages. by destruct (warm_up _ _) as [[]|]. Qed.

Lemma arbitrary_create_vector_database_outcome w :
  ArbitrarySources.create_vector_database w
  = match prepared_sources ArbitrarySources.urls ["artifactory_for_poetry.pdf"] 256
            "BAAI/bge-small-en-v1.5" with
    | Raise exc => (Raise exc, w)
    | Ok docs =>
        match write_documents SKIP docs (store w) with
        | Raise exc => (Raise exc, w)
        | Ok (s, _) => (Ok s, {| store := s; llm_calls := llm_calls w |})
        end
    end.
Proof.
  unfold ArbitrarySources.create_vector_database, prepared_sources.
  pose proof (exec_warm_up "BAAI/bge-small-en-v1.5" "cuda:0" w) as Hload.
  destruct (warm_up "BAAI/bge-small-en-v1.5" "cuda:0") as [[]|exc].
  - rewrite (bind_Ok _ _ w tt w Hload).
    rewrite arbitrary_indexing_built.
    rewrite (bind_Ok (lift (Ok (built ArbitrarySources.indexing_pipeline))) _ w _ w eq_refl).
    rewrite arbitrary_indexing_run.
    unfold mbind, M_bind. rewrite exec_ingest_sources_outcome. simpl.
    destruct (piped_sources _ _ _ _) as [docs|]; [|done].
    by destruct (write_documents SKIP docs (store w)) as [[s written]|].
  - by rewrite (bind_Raise _ _ w exc w Hload).
Qed.

Lemma mlflow_create_vector_database_outcome urls split_length w :
  MlflowDocuments.create_vector_database urls split_length w
  = match prepared_pages urls split_length "BAAI/bge-large-en-v1.5" with
    | Raise exc => (Raise exc, {| store := ∅; llm_calls := llm_calls w |})
    | Ok docs =>
        match write_documents SKIP docs ∅ with
        | Raise exc => (Raise exc, {| store := ∅; llm_calls := llm_calls w |})
        | Ok (s, _) => (Ok s, {| store := s; llm_calls := llm_calls w |})
        end
    end.
Proof.
  unfold MlflowDocuments.create_vector_database, prepared_pages.
  set (w0 := {| store := ∅; llm_calls := llm_calls w |}).
  rewrite (bind_Ok (put_store ∅) _ w tt w0 eq_refl).
  pose proof (exec_warm_up "BAAI/bge-large-en-v1.5" "cuda:0" w0) as Hload.
  destruct (warm_up "BAAI/bge-large-en-v1.5" "cuda:0") as [[]|exc].
  - rewrite (bind_Ok _ _ w0 tt w0 Hload).
    rewrite mlflow_indexing_built.
    rewrite (bind_Ok (lift (Ok (built (MlflowDocuments.indexing_pipeline split_length))))
               _ w0 _ w0 eq_refl).
    rewrite mlflow_indexing_run.
    unfold mbind, M_bind. rewrite exec_ingest_pages_outcome. simpl.
    destruct (piped_pages _ _ _) as [docs|]; [|done].
    by destruct (write_documents SKIP docs ∅) as [[s written]|].
  - by rewrite (bind_Raise _ _ w0 exc w0 Hload).
Qed.

Lemma arbitrary_create_vector_database_store w :
  store (ArbitrarySources.create_vector_database w).2
  = store_after_write
      (prepared_sources ArbitrarySources.urls ["artifactory_for_poetry.pdf"] 256
         "BAAI/bge-small-en-v1.5")
      (store w).
Proof.
  rewrite arbitrary_create_vector_database_outcome. unfold store_after_write.
  destruct (prepared_sources _ _ _ _) as [docs|]; [|done].
  by destruct (write_documents SKIP docs (store w)) as [[s written]|].
Qed.

Lemma mlflow_create_vector_database_store urls split_length w :
  store (MlflowDocuments.create_vector_database urls split_length w).2
  = store_after_write (prepared_pages urls split_length "BAAI/bge-large-en-v1.5") ∅.
Proof.
  rewrite mlflow_create_vector_database_outcome. unfold store_after_write.
  destruct (prepared_pages _ _ _) as [docs|]; [|done].
  by destruct (write_documents SKIP docs ∅) as [[s written]|].
Qed.

(** Under "skip", writing the prepared documents a second time changes
    nothing. *)
Lemma store_after_write_again prepared s :
  (∀ docs s', write_documents SKIP docs s' = Ok (skip_write docs s')) →
  store_after_write prepared (store_after_write prepared s)
  = store_after_write prepared s.
Proof.
  intros Hskip. unfold store_after_write.
  destruct prepared as [docs|e]; [|done].
  rewrite !Hskip. destruct (skip_write docs s) as [s1 n1] eqn:Hfirst.
  pose proof (skip_write_again docs s) as Hagain.
  rewrite Hfirst in Hagain. simpl in Hagain. by rewrite Hagain.
Qed.

(** A run of the pipeline over a store that already holds the documents
    writes none of them. *)
Lemma exec_ingest_sources_again urls pdfs split_length embed_model docs s n :
  (∀ docs' s', write_documents SKIP docs' s' = Ok (skip_write docs' s')) →
  piped_sources urls pdfs split_length embed_model = Ok docs →
  exec (ingest_sources urls pdfs split_length embed_model)
    {| store := (skip_write docs s).1; llm_calls := n |}
  = (Ok {[ "writer" := {[ "documents_written" := VInt 0 ]} ]},
     {| store := (skip_write docs s).1; llm_calls := n |}).
Proof.
  intros Hskip Hpiped. rewrite exec_ingest_sources_outcome, Hpiped. simpl.
  by rewrite Hskip, skip_write_again.
Qed.

Lemma exec_ingest_pages_first urls split_length embed_model docs w :
  (∀ docs' s', write_documents SKIP docs' s' = Ok (skip_write docs' s')) →
  piped_pages urls split_length embed_model = Ok docs →
  (exec (ingest_pages urls split_length embed_model) w).2
  = {| store := (skip_write docs (store w)).1; llm_calls := llm_calls w |}.
Proof.
  intros Hskip Hpiped. rewrite exec_ingest_pages_outcome, Hpiped, Hskip.
  by destruct (skip_write docs (store w)).
Qed.

Lemma exec_ingest_pages_again urls split_length embed_model docs s n :
  (∀ docs' s', write_documents SKIP docs' s' = Ok (skip_write docs' s')) →
  piped_pages urls split_length embed_model = Ok docs →
  exec (ingest_pages urls split_length embed_model)
    {| store := (skip_write docs s).1; llm_calls := n |}
  = (Ok {[ "writer" := {[ "documents_written" := VInt 0 ]} ]},
     {| store := (skip_write docs s).1; llm_calls := n |}).
Proof.
  intros Hskip Hpiped. rewrite exec_ingest_pages_outcome, Hpiped. simpl.
  by rewrite Hskip, skip_write_again.
Qed.

Lemma arbitrary_create_vector_database_skip w docs :
  (∀ docs' s', write_documents SKIP docs' s' = Ok (skip_write docs' s')) →
  prepared_sources ArbitrarySources.urls ["artifactory_for_poetry.pdf"] 256
    "BAAI/bge-small-en-v1.5" = Ok docs →
  ArbitrarySources.create_vector_database w
  = (Ok (skip_write docs (store w)).1,
     {| store := (skip_write docs (store w)).1; llm_calls := llm_calls w |}).
Proof.
  intros Hskip Hprepared.
  rewrite arbitrary_create_vector_database_outcome, Hprepared, Hskip.
  by destruct (skip_write docs (store w)).
Qed.

Lemma mlflow_create_vector_database_skip urls split_length w docs :
  (∀ docs' s', write_documents SKIP docs' s' = Ok (skip_write docs' s')) →
  prepared_pages urls split_length "BAAI/bge-large-en-v1.5" = Ok docs →
  MlflowDocuments.create_vector_database urls split_length w
  = (Ok (skip_write docs ∅).1,
     {| store := (skip_write docs ∅).1; llm_calls := llm_calls w |}).
Proof.
  intros Hskip Hprepared.
  rewrite mlflow_create_vector_database_outcome, Hprepared, Hskip.
  by destruct (skip_write docs ∅).
Qed.

(** C1: under the duplicate policy "skip", re-running the ingestion on an
    identical document set leaves the store's document count unchanged,
    and each unique document content is written exactly once.

    In the arbitrary-sources notebook, where the store persists: the first
    call of [create_vector_database] stores every prepared document, the
    count growing by the number of identifiers new to the store; a run of
    the pipeline after it writes no document; a second call leaves the
    store, and so its count, as the first left it; and with identifiers
    that are content hashes the store holds the content of every prepared
    document under one identifier only, after the first call and after the
    second.  The count is unchanged by a second call also when the
    preparation fails.

    In the MLflow notebook: a second run of the ingestion pipeline over the
    store of the first writes no document and leaves the count unchanged;
    [create_vector_database], which writes into a new store, leaves as many
    documents as the prepared ones have distinct identifiers, each content
    held under one identifier only. *)
Theorem reingestion_under_skip_keeps_count :
  (∀ docs s, write_documents SKIP docs s = Ok (skip_write docs s)) →
  (∀ w docs,
     prepared_sources ArbitrarySources.urls ["artifactory_for_poetry.pdf"] 256
       "BAAI/bge-small-en-v1.5" = Ok docs →
     let w1 := (ArbitrarySources.create_vector_database w).2 in
     let w2 := (ArbitrarySources.create_vector_database w1).2 in
     store w1 = (skip_write docs (store w)).1
     ∧ (∀ doc, doc ∈ docs → is_Some (store w1 !! doc_id doc))
     ∧ count_documents (store w1)
       = (count_documents (store w)
          + Z.of_nat (size (list_to_set (doc_id <$> docs) ∖ dom (store w) : gset string)))%Z
     ∧ exec (run (built ArbitrarySources.indexing_pipeline)
               ArbitrarySources.indexing_inputs) w1
       = (Ok {[ "writer" := {[ "documents_written" := VInt 0 ]} ]}, w1)
     ∧ store w2 = store w1
     ∧ count_documents (store w2) = count_documents (store w1)
     ∧ (filed (store w) → content_hashed (stored (store w) ++ docs) →
        ∀ doc, doc ∈ docs →
          held_once (store w1) (content doc) ∧ held_once (store w2) (content doc)))
  ∧ (∀ w,
       let w1 := (ArbitrarySources.create_vector_database w).2 in
       let w2 := (ArbitrarySources.create_vector_database w1).2 in
       count_documents (store w2) = count_documents (store w1))
  ∧ (∀ urls split_length w docs,
       piped_pages urls split_length "BAAI/bge-large-en-v1.5" = Ok docs →
       let p := built (MlflowDocuments.indexing_pipeline split_length) in
       let data : gmap string (gmap string Value) :=
         {[ "fetcher" := {[ "urls" := VListStr urls ]} ]} in
       let w1 := (exec (run p data) w).2 in
       let w2 := (exec (run p data) w1).2 in
       store w1 = (skip_write docs (store w)).1
       ∧ (∀ doc, doc ∈ docs → is_Some (store w1 !! doc_id doc))
       ∧ exec (run p data) w1
         = (Ok {[ "writer" := {[ "documents_written" := VInt 0 ]} ]}, w1)
       ∧ count_documents (store w2) = count_documents (store w1))
  ∧ (∀ urls split_length w docs,
       prepared_pages urls split_length "BAAI/bge-large-en-v1.5" = Ok docs →
       let w1 := (MlflowDocuments.create_vector_database urls split_length w).2 in
       store w1 = (skip_write docs ∅).1
       ∧ (∀ doc, doc ∈ docs → is_Some (store w1 !! doc_id doc))
       ∧ count_documents (store w1)
         = Z.of_nat (size (list_to_set (doc_id <$> docs) : gset string))
       ∧ (content_hashed docs →
          ∀ doc, doc ∈ docs → held_once (store w1) (content doc))).
Proof.
  intros Hskip. split; [|split; [|split]].
  - intros w docs Hprepared w1 w2.
    pose proof (arbitrary_create_vector_database_skip w docs Hskip Hprepared) as Hfirst.
    assert (Hw1 : w1 = {| store := (skip_write docs (store w)).1;
                          llm_calls := llm_calls w |}).
    { subst w1. by rewrite Hfirst. }
    assert (Hw2 : store w2 = (skip_write docs (store w)).1).
    { subst w2. rewrite Hw1.
      rewrite (arbitrary_create_vector_database_skip _ docs Hskip Hprepared).
      cbn [store snd]. by rewrite skip_write_again. }
    assert (Hrun : exec (run (built ArbitrarySources.indexing_pipeline)
                           ArbitrarySources.indexing_inputs) w1
                   = (Ok {[ "writer" := {[ "documents_written" := VInt 0 ]} ]}, w1)).
    { rewrite Hw1, arbitrary_indexing_run.
      apply (exec_ingest_sources_again _ _ _ _ _ _ _ Hskip).
      by apply prepared_sources_piped. }
    rewrite Hw2. clearbody w1 w2. subst w1. cbn [store].
    split; [done|]. split; [intros doc; apply skip_write_stores|].
    split; [by rewrite skip_write_count, skip_write_written|].
    split; [exact Hrun|]. split; [done|]. split; [done|].
    intros Hfiled Hhash doc Hdoc. split; by apply skip_write_held_once.
  - intros w w1 w2. subst w1 w2.
    rewrite !arbitrary_create_vector_database_store.
    by rewrite store_after_write_again.
  - intros urls split_length w docs Hpiped p data w1 w2.
    assert (Hw1 : w1 = {| store := (skip_write docs (store w)).1;
                          llm_calls := llm_calls w |}).
    { subst w1 p data. rewrite mlflow_indexing_run.
      by apply exec_ingest_pages_first. }
    assert (Hagain : exec (run p data) w1
                     = (Ok {[ "writer" := {[ "documents_written" := VInt 0 ]} ]}, w1)).
    { rewrite Hw1. subst p data. rewrite mlflow_indexing_run.
      by apply exec_ingest_pages_again. }
    assert (Hw2 : w2 = w1) by (subst w2; by rewrite Hagain).
    rewrite Hw2. clearbody w1 w2 p data. subst w1. cbn [store].
    split; [done|]. split; [intros doc; apply skip_write_stores|]. by split.
  - intros urls split_length w docs Hprepared w1. subst w1.
    rewrite (mlflow_create_vector_database_skip _ _ _ _ Hskip Hprepared). cbn [store snd].
    split; [done|]. split; [intros doc; apply skip_write_stores|].
    split.
    { rewrite skip_write_count, skip_write_written.
      unfold count_documents. rewrite map_size_empty, dom_empty_L, difference_empty_L.
      lia. }
    intros Hhash doc Hdoc. apply skip_write_held_once; [|done|done].
    apply map_Forall_empty.
Qed.

End Ingestion.

Lemma reingestion_under_skip_keeps_count_witness :
  let w := {| store := ∅; llm_calls := 0 |} in
  let w1 := (@ArbitrarySources.create_vector_database sample_library w).2 in
  let w2 := (@ArbitrarySources.create_vector_database sample_library w1).2 in
  count_documents (store w1) = 3%Z
  ∧ count_documents (store w2) = count_documents (store w1)
  ∧ held_once (store w2) "artifactory_for_poetry.pdf".
Proof.
  pose proof (proj1 (@reingestion_under_skip_keeps_count sample_library
                       (λ docs s, eq_refl))
                {| store := ∅; llm_calls := 0 |}
                [ sample_document
                    (SStream {| stream_data := "https://medium.com/@ssafarveisi/stream-processing-using-apache-flink-70c5a990801a";
                                stream_meta := {[ "url" := PyStr "https://medium.com/@ssafarveisi/stream-processing-using-apache-flink-70c5a990801a" ]} |});
                  sample_document
                    (SStream {| stream_data := "https://medium.com/@ssafarveisi/pyspark-stream-processing-on-k8s-using-stackable-data-platform-5695b0eafd6f";
                                stream_meta := {[ "url" := PyStr "https://medium.com/@ssafarveisi/pyspark-stream-processing-on-k8s-using-stackable-data-platform-5695b0eafd6f" ]} |});
                  sample_document (SPath "artifactory_for_poetry.pdf") ])
    as Hingest.
  destruct Hingest as (_ & _ & Hcount & _ & _ & Hsame & Hheld);
    [vm_compute; reflexivity|].
  split; [rewrite Hcount; vm_compute; reflexivity|]. split; [exact Hsame|].
  apply (Hheld ltac:(by_computation) ltac:(by_computation)
           (sample_document (SPath "artifactory_for_poetry.pdf"))).
  do 2 apply list_elem_of_further. apply list_elem_of_here.
Defined.
(** ** The sources of the retrieved documents *)

Lemma mlflow_extract_source_url doc v :
  meta doc !! "url" = Some v → MlflowDocuments.extract_source doc = Ok v.
Proof.
  intros Hu. unfold MlflowDocuments.extract_source.
  rewrite (py_in_true _ _ _ Hu). by apply py_getitem_Some.
Qed.

Lemma mlflow_extract_source_no_url doc :
  meta doc !! "url" = None →
  MlflowDocuments.extract_source doc
  = Raise (KeyError "'url' key does not exist in the metadata").
Proof.
  intros Hu. unfold MlflowDocuments.extract_source. by rewrite (py_in_false _ _ Hu).
Qed.

(** The field the arbitrary-sources notebook reads a source from. *)
Lemma arbitrary_extract_source_labelled doc v :
  meta doc !! "url" = Some v
  ∨ (meta doc !! "url" = None ∧ meta doc !! "file_path" = Some v) →
  ArbitrarySources.extract_source doc = Ok v.
Proof.
  unfold ArbitrarySources.extract_source. intros [Hu|[Hu Hf]].
  - rewrite (py_in_true _ _ _ Hu). by apply py_getitem_Some.
  - rewrite (py_in_false _ _ Hu), (py_in_true _ _ _ Hf). by apply py_getitem_Some.
Qed.

Lemma arbitrary_extract_source_unlabelled doc :
  meta doc !! "url" = None → meta doc !! "file_path" = None →
  ArbitrarySources.extract_source doc
  = Raise (KeyError "Neither 'url' nor 'file_path' exists in the metadata").
Proof.
  intros Hu Hf. unfold ArbitrarySources.extract_source.
  by rewrite (py_in_false _ _ Hu), (py_in_false _ _ Hf).
Qed.

(** A comprehension [[f(x) for x in l]] whose [f] answers on every element
    yields the answers in order. *)
Lemma comprehension_Ok {A B} (f : A → result B) (R : A → B → Prop) l k :
  (∀ x y, R x y → f x = Ok y) → Forall2 R l k → mapM f l = Ok k.
Proof.
  intros Hf Hall. induction Hall as [|x y l k Hxy _ IH]; [done|].
  simpl. rewrite (Hf _ _ Hxy). simpl. by rewrite IH.
Qed.

(** When [f] can only fail in one way, one failing element fails the whole
    comprehension in that way. *)
Lemma comprehension_Raise {A B} (f : A → result B) (P : A → Prop) exc l :
  (∀ x, P x → f x = Raise exc) →
  (∀ x, f x = Raise exc ∨ ∃ y, f x = Ok y) →
  Exists P l → mapM f l = Raise exc.
Proof.
  intros HP Hf Hex. induction Hex as [x l Hx|x l _ IH]; simpl.
  - by rewrite (HP _ Hx).
  - destruct (Hf x) as [->|[y ->]]; [done|]. simpl. by rewrite IH.
Qed.

Lemma mlflow_extract_source_outcomes doc :
  MlflowDocuments.extract_source doc
  = Raise (KeyError "'url' key does not exist in the metadata")
  ∨ ∃ v, MlflowDocuments.extract_source doc = Ok v.
Proof.
  destruct (meta doc !! "url") as [v|] eqn:Hu.
  - right. exists v. by apply mlflow_extract_source_url.
  - left. by apply mlflow_extract_source_no_url.
Qed.

Lemma arbitrary_extract_source_outcomes doc :
  ArbitrarySources.extract_source doc
  = Raise (KeyError "Neither 'url' nor 'file_path' exists in the metadata")
  ∨ ∃ v, ArbitrarySources.extract_source doc = Ok v.
Proof.
  destruct (meta doc !! "url") as [v|] eqn:Hu.
  - right. exists v. apply arbitrary_extract_source_labelled. by left.
  - destruct (meta doc !! "file_path") as [v|] eqn:Hf.
    + right. exists v. apply arbitrary_extract_source_labelled. by right.
    + left. by apply arbitrary_extract_source_unlabelled.
Qed.

(** ** The outcomes of a query *)

Lemma first_answer_of_answers question docs c cs :
  first_answer
    {[ "answer_builder" :=
         {[ "answers" := VListAnswer (answer_of question docs <$> c :: cs) ]} ]}
  = Ok (answer_of question docs c).
Proof. reflexivity. Qed.

Lemma first_answer_of_no_answers :
  first_answer {[ "answer_builder" := {[ "answers" := VListAnswer [] ]} ]}
  = Raise (IndexError "list index out of range").
Proof. reflexivity. Qed.

Section QueryOutcomes.
Context `{Library}.

Lemma exec_answer_question_embed_fails embed_model device template llm_model
    question w exc :
  embed_text embed_model device question = Raise exc →
  exec (answer_question embed_model device template llm_model question) w
  = (Raise exc, w).
Proof.
  intros He. unfold answer_question. simpl.
  unfold mbind, M_bind, lift. by rewrite He.
Qed.

Lemma exec_answer_question_retrieval_fails embed_model device template llm_model
    question w e exc :
  embed_text embed_model device question = Ok e →
  embedding_retrieval (store w) e = Raise exc →
  exec (answer_question embed_model device template llm_model question) w
  = (Raise exc, w).
Proof.
  intros He Hdocs. unfold answer_question. simpl.
  unfold mbind, M_bind, lift, get_store. rewrite He. simpl. by rewrite Hdocs.
Qed.

Lemma exec_answer_question_generate_fails embed_model device template llm_model
    question w e docs exc :
  embed_text embed_model device question = Ok e →
  embedding_retrieval (store w) e = Ok docs →
  generate (llm_calls w) llm_model
    (render template
       {[ "question" := VStr question; "documents" := VListDocument docs ]})
  = Raise exc →
  exec (answer_question embed_model device template llm_model question) w
  = (Raise exc, asked w).
Proof.
  intros He Hdocs Hgen. unfold answer_question. simpl.
  unfold mbind, M_bind, lift, get_store, next_llm_call. simpl.
  rewrite He, Hdocs. simpl. by rewrite Hgen.
Qed.

(** A query sends the generator at most one request, and exactly one when
    it returns; nothing else of the state changes. *)
Lemma exec_answer_question_requests embed_model device template llm_model question w :
  let r := exec (answer_question embed_model device template llm_model question) w in
  (r.2 = w ∨ r.2 = asked w) ∧ (∀ response, r.1 = Ok response → r.2 = asked w).
Proof.
  unfold answer_question. simpl.
  unfold mbind, M_bind, lift, get_store, next_llm_call. simpl.
  destruct (embed_text _ _ _) as [e|]; simpl; [|split; [by left|done]].
  destruct (embedding_retrieval _ _) as [docs|]; simpl; [|split; [by left|done]].
  destruct (generate _ _ _) as [completions|]; simpl; split; try (by right); done.
Qed.

(** What the notebooks do with the response of a run. *)
Lemma then_pure {A B} (m : M A) (f : A → M B) w :
  (∀ a w', (f a w').2 = w') →
  ((m ≫= f) w).2 = (m w).2 ∧ (∀ b, ((m ≫= f) w).1 = Ok b → ∃ a, (m w).1 = Ok a).
Proof.
  intros Hf. unfold mbind, M_bind.
  destruct (m w) as [[a|exc] w'] eqn:Hm; simpl; [|done].
  split; [apply Hf|]. intros b _. by exists a.
Qed.

Lemma sources_of_answers {B} (extract : Document → result B)
    (m : M (gmap string (gmap string Value))) question docs c cs w w' :
  m w = (Ok {[ "answer_builder" :=
                 {[ "answers" := VListAnswer (answer_of question docs <$> c :: cs) ]} ]},
         w') →
  (response ← m; answer ← lift (first_answer response);
   lift (mapM extract (documents answer))) w
  = (mapM extract docs, w').
Proof.
  intros Hm. rewrite (bind_Ok _ _ _ _ _ Hm).
  by rewrite first_answer_of_answers.
Qed.

Lemma sources_of_no_answers {B} (extract : Document → result B)
    (m : M (gmap string (gmap string Value))) w w' :
  m w = (Ok {[ "answer_builder" := {[ "answers" := VListAnswer [] ]} ]}, w') →
  (response ← m; answer ← lift (first_answer response);
   lift (mapM extract (documents answer))) w
  = (Raise (IndexError "list index out of range"), w').
Proof.
  intros Hm. rewrite (bind_Ok _ _ _ _ _ Hm).
  by rewrite first_answer_of_no_answers.
Qed.

Lemma arbitrary_run_answered question w e docs completions :
  embed_text "BAAI/bge-small-en-v1.5" "cuda:0" question = Ok e →
  embedding_retrieval (store w) e = Ok docs →
  generate (llm_calls w) "gpt-4o-mini"
    (render ArbitrarySources.prompt_template
       {[ "question" := VStr question; "documents" := VListDocument docs ]})
  = Ok completions →
  exec (run ArbitrarySources.rag_pipeline (question_inputs question)) w
  = (Ok {[ "answer_builder" :=
             {[ "answers" := VListAnswer (answer_of question docs <$> completions) ]} ]},
     asked w).
Proof.
  intros He Hdocs Hgen. rewrite arbitrary_rag_run.
  by apply (exec_answer_question _ _ _ _ _ _ e).
Qed.

Lemma mlflow_run_answered question w e docs completions :
  embed_text "BAAI/bge-large-en-v1.5" "cuda:0" question = Ok e →
  embedding_retrieval (store w) e = Ok docs →
  generate (llm_calls w) "gpt-4o-mini"
    (render MlflowDocuments.prompt_template
       {[ "question" := VStr question; "documents" := VListDocument docs ]})
  = Ok completions →
  exec (run MlflowDocuments.rag_pipeline (question_inputs question)) w
  = (Ok {[ "answer_builder" :=
             {[ "answers" := VListAnswer (answer_of question docs <$> completions) ]} ]},
     asked w).
Proof.
  intros He Hdocs Hgen. rewrite mlflow_rag_run.
  by apply (exec_answer_question _ _ _ _ _ _ e).
Qed.

(** X1: [retrieve_doc_sources] returns one source per retrieved document,
    in retrieval order, whatever the generator replied: in the
    arbitrary-sources notebook the ['url'] of a document that has one and
    otherwise its ['file_path'], in the MLflow notebook the ['url'].  The
    generator has been sent one request; the store is as before. *)
Theorem retrieve_doc_sources_lists_sources_in_order (question : string) (w : World)
    (e : list Q) (docs : list Document)
    (completion : string * gmap string PyVal)
    (others : list (string * gmap string PyVal)) (sources : list PyVal) :
  (embed_text "BAAI/bge-small-en-v1.5" "cuda:0" question = Ok e →
   embedding_retrieval (store w) e = Ok docs →
   generate (llm_calls w) "gpt-4o-mini"
     (render ArbitrarySources.prompt_template
        {[ "question" := VStr question; "documents" := VListDocument docs ]})
   = Ok (completion :: others) →
   Forall2
     (λ doc source,
        meta doc !! "url" = Some source
        ∨ (meta doc !! "url" = None ∧ meta doc !! "file_path" = Some source))
     docs sources →
   ArbitrarySources.retrieve_doc_sources question w = (Ok sources, asked w))
  ∧ (embed_text "BAAI/bge-large-en-v1.5" "cuda:0" question = Ok e →
     embedding_retrieval (store w) e = Ok docs →
     generate (llm_calls w) "gpt-4o-mini"
       (render MlflowDocuments.prompt_template
          {[ "question" := VStr question; "documents" := VListDocument docs ]})
     = Ok (completion :: others) →
     Forall2 (λ doc source, meta doc !! "url" = Some source) docs sources →
     MlflowDocuments.retrieve_doc_sources question w = (Ok sources, asked w)).
Proof.
  split; intros He Hdocs Hgen Hsources.
  - unfold ArbitrarySources.retrieve_doc_sources.
    rewrite (sources_of_answers _ _ _ _ _ _ _ _
               (arbitrary_run_answered _ _ _ _ _ He Hdocs Hgen)).
    f_equal. exact (comprehension_Ok _ _ _ _ arbitrary_extract_source_labelled Hsources).
  - unfold MlflowDocuments.retrieve_doc_sources.
    rewrite (sources_of_answers _ _ _ _ _ _ _ _
               (mlflow_run_answered _ _ _ _ _ He Hdocs Hgen)).
    f_equal. exact (comprehension_Ok _ _ _ _ mlflow_extract_source_url Hsources).
Qed.

(** X2: one retrieved document without a source field fails the whole
    call: [retrieve_doc_sources] raises the [KeyError] of [extract_source]
    and returns no partial list, and this after the generator has been sent
    its request.  In the MLflow notebook a document that carries only a
    ['file_path'] is such a document. *)
Theorem retrieve_doc_sources_unlabelled_document_raises (question : string) (w : World)
    (e : list Q) (docs : list Document)
    (completion : string * gmap string PyVal)
    (others : list (string * gmap string PyVal)) :
  (embed_text "BAAI/bge-small-en-v1.5" "cuda:0" question = Ok e →
   embedding_retrieval (store w) e = Ok docs →
   generate (llm_calls w) "gpt-4o-mini"
     (render ArbitrarySources.prompt_template
        {[ "question" := VStr question; "documents" := VListDocument docs ]})
   = Ok (completion :: others) →
   Exists (λ doc, meta doc !! "url" = None ∧ meta doc !! "file_path" = None) docs →
   ArbitrarySources.retrieve_doc_sources question w
   = (Raise (KeyError "Neither 'url' nor 'file_path' exists in the metadata"), asked w))
  ∧ (embed_text "BAAI/bge-large-en-v1.5" "cuda:0" question = Ok e →
     embedding_retrieval (store w) e = Ok docs →
     generate (llm_calls w) "gpt-4o-mini"
       (render MlflowDocuments.prompt_template
          {[ "question" := VStr question; "documents" := VListDocument docs ]})
     = Ok (completion :: others) →
     Exists (λ doc, meta doc !! "url" = None) docs →
     MlflowDocuments.retrieve_doc_sources question w
     = (Raise (KeyError "'url' key does not exist in the metadata"), asked w)).
Proof.
  split; intros He Hdocs Hgen Hbare.
  - unfold ArbitrarySources.retrieve_doc_sources.
    rewrite (sources_of_answers _ _ _ _ _ _ _ _
               (arbitrary_run_answered _ _ _ _ _ He Hdocs Hgen)).
    f_equal. apply (comprehension_Raise _ _ _ _
                      (λ doc Hdoc, arbitrary_extract_source_unlabelled doc
                                     (proj1 Hdoc) (proj2 Hdoc))
                      arbitrary_extract_source_outcomes Hbare).
  - unfold MlflowDocuments.retrieve_doc_sources.
    rewrite (sources_of_answers _ _ _ _ _ _ _ _
               (mlflow_run_answered _ _ _ _ _ He Hdocs Hgen)).
    f_equal. apply (comprehension_Raise _ _ _ _ mlflow_extract_source_no_url
                      mlflow_extract_source_outcomes Hbare).
Qed.

(** X3: when the generator returns no completion there is no first answer:
    [answers[0]] raises an [IndexError] in [retrieve_doc_sources] and in
    [qa], whatever was retrieved. *)
Theorem no_completion_raises_index_error (question : string) (w : World)
    (e : list Q) (docs : list Document) :
  (embed_text "BAAI/bge-small-en-v1.5" "cuda:0" question = Ok e →
   embedding_retrieval (store w) e = Ok docs →
   generate (llm_calls w) "gpt-4o-mini"
     (render ArbitrarySources.prompt_template
        {[ "question" := VStr question; "documents" := VListDocument docs ]})
   = Ok [] →
   ArbitrarySources.retrieve_doc_sources question w
   = (Raise (IndexError "list index out of range"), asked w))
  ∧ (embed_text "BAAI/bge-large-en-v1.5" "cuda:0" question = Ok e →
     embedding_retrieval (store w) e = Ok docs →
     generate (llm_calls w) "gpt-4o-mini"
       (render MlflowDocuments.prompt_template
          {[ "question" := VStr question; "documents" := VListDocument docs ]})
     = Ok [] →
     MlflowDocuments.retrieve_doc_sources question w
     = (Raise (IndexError "list index out of range"), asked w)
     ∧ MlflowDocuments.qa question w
       = (Raise (IndexError "list index out of range"), asked w)).
Proof.
  split; intros He Hdocs Hgen.
  - unfold ArbitrarySources.retrieve_doc_sources.
    apply sources_of_no_answers.
    exact (arbitrary_run_answered _ _ _ _ _ He Hdocs Hgen).
  - pose proof (mlflow_run_answered _ _ _ _ _ He Hdocs Hgen) as Hrun. split.
    + unfold MlflowDocuments.retrieve_doc_sources. by apply sources_of_no_answers.
    + unfold MlflowDocuments.qa. rewrite (bind_Ok _ _ _ _ _ Hrun).
      reflexivity.
Qed.

(** X4: [retrieve_doc_sources] and [qa] have no handler and substitute
    no answer: an exception that the run of the query pipeline raises comes
    out of them as it is, with the state the run left.  When the embedder
    or the store's query fails they raise, the generator is never asked and
    the state is as before the call; when the generator fails they raise
    after its request has been sent. *)
Theorem service_failure_propagates (question : string) (w : World) (exc : Exception) :
  (∀ w',
     exec (run ArbitrarySources.rag_pipeline (question_inputs question)) w
     = (Raise exc, w') →
     ArbitrarySources.retrieve_doc_sources question w = (Raise exc, w'))
  ∧ (∀ w',
       exec (run MlflowDocuments.rag_pipeline (question_inputs question)) w
       = (Raise exc, w') →
       MlflowDocuments.retrieve_doc_sources question w = (Raise exc, w')
       ∧ MlflowDocuments.qa question w = (Raise exc, w'))
  ∧ ((embed_text "BAAI/bge-small-en-v1.5" "cuda:0" question = Raise exc
      ∨ ∃ e, embed_text "BAAI/bge-small-en-v1.5" "cuda:0" question = Ok e
             ∧ embedding_retrieval (store w) e = Raise exc) →
     ∃ exc', ArbitrarySources.retrieve_doc_sources question w = (Raise exc', w))
  ∧ ((embed_text "BAAI/bge-large-en-v1.5" "cuda:0" question = Raise exc
      ∨ ∃ e, embed_text "BAAI/bge-large-en-v1.5" "cuda:0" question = Ok e
             ∧ embedding_retrieval (store w) e = Raise exc) →
     ∃ exc', MlflowDocuments.retrieve_doc_sources question w = (Raise exc', w)
             ∧ MlflowDocuments.qa question w = (Raise exc', w))
  ∧ (∀ e docs,
       embed_text "BAAI/bge-small-en-v1.5" "cuda:0" question = Ok e →
       embedding_retrieval (store w) e = Ok docs →
       generate (llm_calls w) "gpt-4o-mini"
         (render ArbitrarySources.prompt_template
            {[ "question" := VStr question; "documents" := VListDocument docs ]})
       = Raise exc →
       ∃ exc', ArbitrarySources.retrieve_doc_sources question w
               = (Raise exc', asked w))
  ∧ (∀ e docs,
       embed_text "BAAI/bge-large-en-v1.5" "cuda:0" question = Ok e →
       embedding_retrieval (store w) e = Ok docs →
       generate (llm_calls w) "gpt-4o-mini"
         (render MlflowDocuments.prompt_template
            {[ "question" := VStr question; "documents" := VListDocument docs ]})
       = Raise exc →
       ∃ exc', MlflowDocuments.retrieve_doc_sources question w = (Raise exc', asked w)
               ∧ MlflowDocuments.qa question w = (Raise exc', asked w)).
Proof.
  assert (Harbitrary : ∀ w',
            exec (run ArbitrarySources.rag_pipeline (question_inputs question)) w
            = (Raise exc, w') →
            ArbitrarySources.retrieve_doc_sources question w = (Raise exc, w')).
  { intros w' Hrun. by apply bind_Raise. }
  assert (Hmlflow : ∀ w',
            exec (run MlflowDocuments.rag_pipeline (question_inputs question)) w
            = (Raise exc, w') →
            MlflowDocuments.retrieve_doc_sources question w = (Raise exc, w')
            ∧ MlflowDocuments.qa question w = (Raise exc, w')).
  { intros w' Hrun. split; by apply bind_Raise. }
  split; [exact Harbitrary|]. split; [exact Hmlflow|].
  split; [|split; [|split]].
  - intros Hfail. exists exc. apply Harbitrary. rewrite arbitrary_rag_run.
    destruct Hfail as [He|(e & He & Hdocs)].
    + by apply exec_answer_question_embed_fails.
    + by apply (exec_answer_question_retrieval_fails _ _ _ _ _ _ e).
  - intros Hfail. exists exc. apply Hmlflow. rewrite mlflow_rag_run.
    destruct Hfail as [He|(e & He & Hdocs)].
    + by apply exec_answer_question_embed_fails.
    + by apply (exec_answer_question_retrieval_fails _ _ _ _ _ _ e).
  - intros e docs He Hdocs Hgen. exists exc. apply Harbitrary.
    rewrite arbitrary_rag_run.
    by apply (exec_answer_question_generate_fails _ _ _ _ _ _ e docs).
  - intros e docs He Hdocs Hgen. exists exc. apply Hmlflow.
    rewrite mlflow_rag_run.
    by apply (exec_answer_question_generate_fails _ _ _ _ _ _ e docs).
Qed.

(** *** One question after another *)

(** A function that handles a question by one query of the pipeline. *)
Lemma questions_in_turn {B} (f : string → M B) questions :
  (∀ q w, ((f q w).2 = w ∨ (f q w).2 = asked w)
          ∧ ∀ b, (f q w).1 = Ok b → (f q w).2 = asked w) →
  ∀ w,
    (llm_calls (mapM f questions w).2 ≤ llm_calls w + length questions)%nat
    ∧ store (mapM f questions w).2 = store w
    ∧ ∀ bs, (mapM f questions w).1 = Ok bs →
        length bs = length questions
        ∧ llm_calls (mapM f questions w).2 = (llm_calls w + length questions)%nat.
Proof.
  intros Hf. induction questions as [|q questions IH]; intros w.
  - simpl. split; [lia|]. split; [done|]. intros bs [= <-]. simpl. lia.
  - destruct (Hf q w) as [Hstep Hok]. specialize (IH (f q w).2).
    destruct IH as (IHle & IHstore & IHok).
    assert (Hcons : mapM f (q :: questions) w
                    = match f q w with
                      | (Ok y, w1) =>
                          match mapM f questions w1 with
                          | (Ok k, w2) => (Ok (y :: k), w2)
                          | (Raise exc, w2) => (Raise exc, w2)
                          end
                      | (Raise exc, w1) => (Raise exc, w1)
                      end) by reflexivity.
    rewrite Hcons. clear Hcons.
    destruct (f q w) as [[y|exc] w1] eqn:Hq; simpl in *.
    + specialize (Hok y eq_refl). subst w1.
      destruct (mapM f questions (asked w)) as [[k|exc] w2] eqn:Hrest; simpl in *.
      * split; [lia|]. split; [done|]. intros bs [= <-].
        destruct (IHok k eq_refl) as [Hlen Hcalls]. simpl. lia.
      * split; [lia|]. split; [done|]. done.
    + split; [|split; [|done]].
      * destruct Hstep as [->| ->]; simpl; lia.
      * by destruct Hstep as [->| ->].
Qed.

(** Splits a notebook function into the run and what follows it. *)
Ltac after_run Hworld Hsome :=
  match goal with
  | |- context [(exec ?p ≫= ?f) ?w] =>
      destruct (then_pure (exec p) f w) as [Hworld Hsome];
      [ let response := fresh "response" in
        let w' := fresh "w" in
        intros response w'; unfold mbind, M_bind, lift;
        by destruct (first_answer response)
      | ]
  end.

Lemma mlflow_qa_step question w :
  ((MlflowDocuments.qa question w).2 = w ∨ (MlflowDocuments.qa question w).2 = asked w)
  ∧ ∀ out, (MlflowDocuments.qa question w).1 = Ok out →
      (MlflowDocuments.qa question w).2 = asked w.
Proof.
  pose proof (exec_answer_question_requests "BAAI/bge-large-en-v1.5" "cuda:0"
                MlflowDocuments.prompt_template "gpt-4o-mini" question w) as [Hw Hok].
  rewrite <- mlflow_rag_run in Hw, Hok.
  unfold MlflowDocuments.qa. after_run Hworld Hsome.
  rewrite Hworld. split; [exact Hw|].
  intros out Hout. destruct (Hsome _ Hout) as [response Hresponse].
  by apply (Hok response).
Qed.

Lemma mlflow_retrieve_doc_sources_step question w :
  ((MlflowDocuments.retrieve_doc_sources question w).2 = w
   ∨ (MlflowDocuments.retrieve_doc_sources question w).2 = asked w)
  ∧ ∀ sources, (MlflowDocuments.retrieve_doc_sources question w).1 = Ok sources →
      (MlflowDocuments.retrieve_doc_sources question w).2 = asked w.
Proof.
  pose proof (exec_answer_question_requests "BAAI/bge-large-en-v1.5" "cuda:0"
                MlflowDocuments.prompt_template "gpt-4o-mini" question w) as [Hw Hok].
  rewrite <- mlflow_rag_run in Hw, Hok.
  unfold MlflowDocuments.retrieve_doc_sources. after_run Hworld Hsome.
  rewrite Hworld. split; [exact Hw|].
  intros sources Hsources. destruct (Hsome _ Hsources) as [response Hresponse].
  by apply (Hok response).
Qed.

Lemma arbitrary_retrieve_doc_sources_step question w :
  ((ArbitrarySources.retrieve_doc_sources question w).2 = w
   ∨ (ArbitrarySources.retrieve_doc_sources question w).2 = asked w)
  ∧ ∀ sources, (ArbitrarySources.retrieve_doc_sources question w).1 = Ok sources →
      (ArbitrarySources.retrieve_doc_sources question w).2 = asked w.
Proof.
  pose proof (exec_answer_question_requests "BAAI/bge-small-en-v1.5" "cuda:0"
                ArbitrarySources.prompt_template "gpt-4o-mini" question w) as [Hw Hok].
  rewrite <- arbitrary_rag_run in Hw, Hok.
  unfold ArbitrarySources.retrieve_doc_sources. after_run Hworld Hsome.
  rewrite Hworld. split; [exact Hw|].
  intros sources Hsources. destruct (Hsome _ Hsources) as [response Hresponse].
  by apply (Hok response).
Qed.

(** X5: [model] and the two [retriever_model_function]s handle the
    questions of the table one after another, each by one run of the query
    pipeline.  When they return, there is one result per question and the
    generator has been sent exactly one request per question, also where
    only the retrieved sources are kept; whatever happens, it has been sent
    at most that many, and the store is as before. *)
Theorem one_generator_request_per_question (questions : list string) (w : World) :
  ((llm_calls (MlflowDocuments.model questions w).2
    ≤ llm_calls w + length questions)%nat
   ∧ store (MlflowDocuments.model questions w).2 = store w
   ∧ ∀ outs, (MlflowDocuments.model questions w).1 = Ok outs →
       length outs = length questions
       ∧ llm_calls (MlflowDocuments.model questions w).2
         = (llm_calls w + length questions)%nat)
  ∧ ((llm_calls (MlflowDocuments.retriever_model_function questions w).2
      ≤ llm_calls w + length questions)%nat
     ∧ store (MlflowDocuments.retriever_model_function questions w).2 = store w
     ∧ ∀ sources,
         (MlflowDocuments.retriever_model_function questions w).1 = Ok sources →
         length sources = length questions
         ∧ llm_calls (MlflowDocuments.retriever_model_function questions w).2
           = (llm_calls w + length questions)%nat)
  ∧ ((llm_calls (ArbitrarySources.retriever_model_function questions w).2
      ≤ llm_calls w + length questions)%nat
     ∧ store (ArbitrarySources.retriever_model_function questions w).2 = store w
     ∧ ∀ sources,
         (ArbitrarySources.retriever_model_function questions w).1 = Ok sources →
         length sources = length questions
         ∧ llm_calls (ArbitrarySources.retriever_model_function questions w).2
           = (llm_calls w + length questions)%nat).
Proof.
  split; [|split].
  - exact (questions_in_turn _ questions mlflow_qa_step w).
  - exact (questions_in_turn _ questions mlflow_retrieve_doc_sources_step w).
  - exact (questions_in_turn _ questions arbitrary_retrieve_doc_sources_step w).
Qed.

End QueryOutcomes.
Lemma retrieve_doc_sources_lists_sources_in_order_witness :
  @ArbitrarySources.retrieve_doc_sources sample_library
    "Which version of Stackable did the author use?" sample_world
  = (Ok [ PyStr "https://medium.com/@ssafarveisi/stream-processing-using-apache-flink-70c5a990801a";
          PyStr "artifactory_for_poetry.pdf" ],
     asked sample_world).
Proof.
  pose proof (proj1 (@retrieve_doc_sources_lists_sources_in_order sample_library
                       "Which version of Stackable did the author use?" sample_world
                       [] [web_doc; pdf_doc]
                       ("reply 0", {[ "model" := PyStr "gpt-4o-mini"; "index" := PyInt 0 ]})
                       []
                       [ PyStr "https://medium.com/@ssafarveisi/stream-processing-using-apache-flink-70c5a990801a";
                         PyStr "artifactory_for_poetry.pdf" ])) as Hsources.
  apply Hsources; [vm_compute; reflexivity ..|].
  constructor; [left; reflexivity|].
  constructor; [right; split; reflexivity|].
  constructor.
Defined.

Lemma retrieve_doc_sources_unlabelled_document_raises_witness :
  @MlflowDocuments.retrieve_doc_sources sample_library "What is MLflow?" sample_world
  = (Raise (KeyError "'url' key does not exist in the metadata"), asked sample_world).
Proof.
  pose proof (proj2 (@retrieve_doc_sources_unlabelled_document_raises sample_library
                       "What is MLflow?" sample_world [] [web_doc; pdf_doc]
                       ("reply 0", {[ "model" := PyStr "gpt-4o-mini"; "index" := PyInt 0 ]})
                       [])) as Hraises.
  apply Hraises; [vm_compute; reflexivity ..|].
  apply Exists_cons_tl, Exists_cons_hd. reflexivity.
Defined.

Lemma no_completion_raises_index_error_witness :
  @MlflowDocuments.qa mute_library "What is MLflow?" sample_world
  = (Raise (IndexError "list index out of range"), asked sample_world).
Proof.
  pose proof (proj2 (@no_completion_raises_index_error mute_library
                       "What is MLflow?" sample_world [] [web_doc; pdf_doc])) as Hraises.
  apply Hraises; vm_compute; reflexivity.
Defined.

Lemma service_failure_propagates_witness :
  ∃ exc', @MlflowDocuments.retrieve_doc_sources offline_library "What is MLflow?"
            sample_world = (Raise exc', sample_world)
          ∧ @MlflowDocuments.qa offline_library "What is MLflow?" sample_world
            = (Raise exc', sample_world).
Proof.
  pose proof (proj1 (proj2 (proj2 (proj2 (@service_failure_propagates offline_library
                                            "What is MLflow?" sample_world offline)))))
    as Hraises.
  apply Hraises. left. reflexivity.
Defined.

Lemma one_generator_request_per_question_witness :
  llm_calls
    (@MlflowDocuments.model sample_library
       ["What is MLflow?"; "What is Databricks?"] sample_world).2
  = 2%nat.
Proof.
  pose proof (proj2 (proj2 (proj1 (@one_generator_request_per_question sample_library
                                     ["What is MLflow?"; "What is Databricks?"]
                                     sample_world)))
                [ {[ "result" := VStr "reply 0";
                     "source_documents" := VListStr ["Stackable 22.11"; "DEFAULT_CA_BUNDLE"] ]};
                  {[ "result" := VStr "reply 1";
                     "source_documents" := VListStr ["Stackable 22.11"; "DEFAULT_CA_BUNDLE"] ]} ])
    as Hcount.
  apply Hcount. vm_compute. reflexivity.
Defined.
(** ** The outcomes of an ingestion *)

Section IngestionOutcomes.
Context `{Library}.

(** X6: in the arbitrary-sources notebook, an ingestion that fails before
    the writer writes nothing.  When loading the embedding model
    ([document_embedder.warm_up()]) raises, [create_vector_database] raises
    that exception before anything is fetched, whatever the fetcher would
    have answered; when the loading or the fetching, conversion, joining,
    cleaning, splitting or embedding raises, [create_vector_database]
    raises; either way the persisted store is left as it was. *)
Theorem failed_preparation_writes_nothing (w : World) (exc : Exception) :
  (warm_up "BAAI/bge-small-en-v1.5" "cuda:0" = Raise exc →
   ArbitrarySources.create_vector_database w = (Raise exc, w))
  ∧ (prepared_sources ArbitrarySources.urls ["artifactory_for_poetry.pdf"] 256
       "BAAI/bge-small-en-v1.5" = Raise exc →
     ∃ exc', ArbitrarySources.create_vector_database w = (Raise exc', w)).
Proof.
  split.
  - intros Hload. rewrite arbitrary_create_vector_database_outcome.
    unfold prepared_sources. by rewrite Hload.
  - intros Hprepared. exists exc. rewrite arbitrary_create_vector_database_outcome.
    by rewrite Hprepared.
Qed.

(** X7: [create_vector_database] hands every prepared document to the
    store in one write under the duplicate policy "skip" and returns the
    store that write leaves: in the arbitrary-sources notebook the write
    goes into the store as persisted so far, in the MLflow notebook into an
    empty store. *)
Theorem create_vector_database_returns_written_store (w : World)
    (docs : list Document) (s : gmap string Document) (written : Z) :
  (prepared_sources ArbitrarySources.urls ["artifactory_for_poetry.pdf"] 256
     "BAAI/bge-small-en-v1.5" = Ok docs →
   write_documents SKIP docs (store w) = Ok (s, written) →
   ArbitrarySources.create_vector_database w
   = (Ok s, {| store := s; llm_calls := llm_calls w |}))
  ∧ (∀ urls split_length,
       prepared_pages urls split_length "BAAI/bge-large-en-v1.5" = Ok docs →
       write_documents SKIP docs ∅ = Ok (s, written) →
       MlflowDocuments.create_vector_database urls split_length w
       = (Ok s, {| store := s; llm_calls := llm_calls w |})).
Proof.
  split.
  - intros Hprepared Hwrite. rewrite arbitrary_create_vector_database_outcome.
    by rewrite Hprepared, Hwrite.
  - intros urls split_length Hprepared Hwrite.
    rewrite mlflow_create_vector_database_outcome.
    by rewrite Hprepared, Hwrite.
Qed.

(** X8: every call of the MLflow notebook's [create_vector_database]
    ingests into a store of its own: what it returns and the store it
    leaves do not depend on what was stored before, so the stores built for
    two split lengths do not mix. *)
Theorem mlflow_store_independent_of_earlier_store (urls : list string)
    (split_length : Z) (w1 w2 : World) :
  (MlflowDocuments.create_vector_database urls split_length w1).1
  = (MlflowDocuments.create_vector_database urls split_length w2).1
  ∧ store (MlflowDocuments.create_vector_database urls split_length w1).2
    = store (MlflowDocuments.create_vector_database urls split_length w2).2.
Proof.
  rewrite !mlflow_create_vector_database_outcome.
  destruct (prepared_pages _ _ _) as [docs|]; [|done].
  by destruct (write_documents SKIP docs ∅) as [[s written]|].
Qed.

(** X9: an ingestion never asks the generator: whatever the services
    answer, the number of requests sent to it is the same after
    [create_vector_database] as before. *)
Theorem ingestion_sends_generator_no_request (w : World) (urls : list string)
    (split_length : Z) :
  llm_calls (ArbitrarySources.create_vector_database w).2 = llm_calls w
  ∧ llm_calls (MlflowDocuments.create_vector_database urls split_length w).2
    = llm_calls w.
Proof.
  rewrite arbitrary_create_vector_database_outcome,
    mlflow_create_vector_database_outcome.
  split.
  - destruct (prepared_sources _ _ _ _) as [docs|]; [|done].
    by destruct (write_documents SKIP docs (store w)) as [[s written]|].
  - destruct (prepared_pages _ _ _) as [docs|]; [|done].
    by destruct (write_documents SKIP docs ∅) as [[s written]|].
Qed.

(** X10: with a store that writes under "skip" as its policy says, the
    arbitrary-sources notebook's ingestion only adds to the persisted
    store: a document stored before is still stored afterwards, unchanged,
    also when the sources now yield a different document under the same
    identifier. *)
Theorem ingestion_under_skip_keeps_stored_documents :
  (∀ docs s, write_documents SKIP docs s = Ok (skip_write docs s)) →
  ∀ (w : World) (i : string) (d : Document),
    store w !! i = Some d →
    store (ArbitrarySources.create_vector_database w).2 !! i = Some d.
Proof.
  intros Hskip w i d Hi. rewrite arbitrary_create_vector_database_store.
  unfold store_after_write. destruct (prepared_sources _ _ _ _) as [docs|]; [|done].
  rewrite Hskip. destruct (skip_write docs (store w)) as [s written] eqn:Hwrite.
  change s with (s, written).1. rewrite <- Hwrite. by apply skip_write_preserves.
Qed.

End IngestionOutcomes.

Lemma failed_preparation_writes_nothing_witness :
  @ArbitrarySources.create_vector_database offline_library sample_world
  = (Raise offline, sample_world).
Proof.
  pose proof (proj1 (@failed_preparation_writes_nothing offline_library
                       sample_world offline)) as Hraises.
  apply Hraises. reflexivity.
Defined.

Lemma create_vector_database_returns_written_store_witness :
  @MlflowDocuments.create_vector_database sample_library
    ["https://mlflow.org/docs/latest/index.html"] 1000 sample_world
  = (Ok {[ "https://mlflow.org/docs/latest/index.html" :=
             sample_document
               (SStream {| stream_data := "https://mlflow.org/docs/latest/index.html";
                           stream_meta :=
                             {[ "url" := PyStr "https://mlflow.org/docs/latest/index.html" ]} |}) ]},
     {| store :=
          {[ "https://mlflow.org/docs/latest/index.html" :=
               sample_document
                 (SStream {| stream_data := "https://mlflow.org/docs/latest/index.html";
                             stream_meta :=
                               {[ "url" := PyStr "https://mlflow.org/docs/latest/index.html" ]} |}) ]};
        llm_calls := llm_calls sample_world |}).
Proof.
  pose proof (proj2 (@create_vector_database_returns_written_store sample_library
                       sample_world
                       [ sample_document
                           (SStream {| stream_data := "https://mlflow.org/docs/latest/index.html";
                                       stream_meta :=
                                         {[ "url" := PyStr "https://mlflow.org/docs/latest/index.html" ]} |}) ]
                       {[ "https://mlflow.org/docs/latest/index.html" :=
                            sample_document
                              (SStream {| stream_data := "https://mlflow.org/docs/latest/index.html";
                                          stream_meta :=
                                            {[ "url" := PyStr "https://mlflow.org/docs/latest/index.html" ]} |}) ]}
                       1%Z)
                ["https://mlflow.org/docs/latest/index.html"] 1000%Z) as Hstore.
  apply Hstore; vm_compute; reflexivity.
Defined.

Lemma ingestion_under_skip_keeps_stored_documents_witness :
  store (@ArbitrarySources.create_vector_database sample_library sample_world).2 !! "d1"
  = Some web_doc.
Proof.
  pose proof (@ingestion_under_skip_keeps_stored_documents sample_library
                (λ docs s, eq_refl) sample_world "d1" web_doc) as Hkept.
  apply Hkept. reflexivity.
Defined.
(** ** Where the components lead *)

Lemma reaches_path fuel p a b : reaches fuel p a b = true → path p a b.
Proof.
  revert a. induction fuel as [|fuel IH]; intros a; simpl; [done|].
  intros Hsome. apply existsb_exists in Hsome as (c & Hc & Hstep).
  apply list_elem_of_In in Hc.
  case_bool_decide as Ha; [|done]. case_bool_decide as Hb.
  - apply path_edge. by exists c.
  - apply path_step with (receiver c); [by exists c|by apply IH].
Qed.

Lemma drains_into_check p sink :
  Forall (λ nc, nc.1 = sink ∨ reaches (length (components p)) p nc.1 sink = true)
    (components p) →
  Forall (λ c, sender c ≠ sink) (connections p) →
  drains_into p sink.
Proof.
  intros Hreach Hout. split.
  - intros name Hname Hne.
    apply list_elem_of_fmap in Hname as ([name' comp] & -> & Hin).
    destruct (proj1 (Forall_forall _ _) Hreach _ Hin) as [Heq|Hpath]; [done|].
    by apply reaches_path in Hpath.
  - intros name (c & Hc & Hsender & _).
    by apply (proj1 (Forall_forall _ _) Hout c Hc).
Qed.

(** X11: in every graph the notebooks wire, each component leads, along
    the connections, to the one component at the end, and no connection
    leaves that one: the writer in the ingestion graphs, the answer builder
    in the query graphs.  No component's output is left unused. *)
Theorem every_component_leads_to_the_last :
  drains_into (built ArbitrarySources.indexing_pipeline) "writer"
  ∧ (∀ split_length,
       drains_into (built (MlflowDocuments.indexing_pipeline split_length)) "writer")
  ∧ drains_into ArbitrarySources.rag_pipeline "answer_builder"
  ∧ drains_into MlflowDocuments.rag_pipeline "answer_builder".
Proof.
  split; [|split; [|split]]; [|intros split_length| |];
    apply drains_into_check; by_computation.
Qed.

(** ** The prompt *)

Lemma append_empty_r (s : string) : s ++ "" = s.
Proof.
  induction s as [|c s IH]; [done|].
  change (String c s ++ "") with (String c (s ++ "")). by rewrite IH.
Qed.

Lemma append_assoc (s t u : string) : (s ++ t) ++ u = s ++ t ++ u.
Proof.
  induction s as [|c s IH]; [done|].
  change ((String c s ++ t) ++ u) with (String c ((s ++ t) ++ u)).
  change (String c s ++ t ++ u) with (String c (s ++ t ++ u)). by rewrite IH.
Qed.

Lemma concat_cons (s : string) (l : list string) :
  String.concat "" (s :: l) = s ++ String.concat "" l.
Proof. destruct l; simpl; [by rewrite append_empty_r|done]. Qed.

(** The rendered loop holds the content of each document it ran over. *)
Lemma loop_holds_content (docs : list Document) (doc : Document) :
  doc ∈ docs →
  ∃ before after,
    String.concat ""
      (d ← docs; [nl ++ "    "; content d; nl ++ "    "])
    = before ++ content doc ++ after.
Proof.
  induction docs as [|d docs IH]; intros Hin; [by apply elem_of_nil in Hin|].
  rewrite bind_cons. cbn [app]. rewrite !concat_cons.
  apply elem_of_cons in Hin as [->|Hin].
  - by eexists _, _.
  - destruct (IH Hin) as (before & after & ->).
    exists ((nl ++ "    ") ++ content d ++ (nl ++ "    ") ++ before), after.
    by rewrite !append_assoc.
Qed.

Lemma arbitrary_prompt_layout question docs :
  render ArbitrarySources.prompt_template
    {[ "question" := VStr question; "documents" := VListDocument docs ]}
  = (nl ++ "    Answer the following question given the documents." ++ nl
     ++ "    If the answer is not contained within the documents reply with 'no_answer'"
     ++ nl ++ "    Query: ")
    ++ question
    ++ (nl ++ "    Documents:" ++ nl ++ "    ")
    ++ String.concat "" (d ← docs; [nl ++ "    "; content d; nl ++ "    "])
    ++ nl ++ "    ".
Proof. reflexivity. Qed.

Lemma mlflow_prompt_layout question docs :
  render MlflowDocuments.prompt_template
    {[ "question" := VStr question; "documents" := VListDocument docs ]}
  = (nl ++ "    Answer the following question given the documents." ++ nl
     ++ "    If the answer is not contained within the documents reply with 'no_answer'. "
     ++ nl ++ "    Your answer should not exceed 100 words. "
     ++ nl ++ "    Query: ")
    ++ question
    ++ (nl ++ "    Documents:" ++ nl ++ "    ")
    ++ String.concat "" (d ← docs; [nl ++ "    "; content d; nl ++ "    "])
    ++ nl ++ "    ".
Proof. reflexivity. Qed.

(** X12: the prompt rendered for the generator holds the question right
    after ["Query: "] and, further on, the whole content of every
    retrieved document; none is left out or cut.  This holds for the
    templates of both notebooks. *)
Theorem prompt_holds_question_and_documents (question : string)
    (docs : list Document) (doc : Document) (template : list TemplateItem) :
  template = ArbitrarySources.prompt_template
  ∨ template = MlflowDocuments.prompt_template →
  doc ∈ docs →
  ∃ before between after,
    render template
      {[ "question" := VStr question; "documents" := VListDocument docs ]}
    = before ++ "Query: " ++ question ++ between ++ content doc ++ after.
Proof.
  intros Htemplate Hdoc.
  destruct (loop_holds_content docs doc Hdoc) as (before & after & Hloop).
  destruct Htemplate as [-> | ->].
  - rewrite arbitrary_prompt_layout, Hloop.
    exists (nl ++ "    Answer the following question given the documents." ++ nl
            ++ "    If the answer is not contained within the documents reply with 'no_answer'"
            ++ nl ++ "    "),
      ((nl ++ "    Documents:" ++ nl ++ "    ") ++ before),
      (after ++ nl ++ "    ").
    rewrite !append_assoc. reflexivity.
  - rewrite mlflow_prompt_layout, Hloop.
    exists (nl ++ "    Answer the following question given the documents." ++ nl
            ++ "    If the answer is not contained within the documents reply with 'no_answer'. "
            ++ nl ++ "    Your answer should not exceed 100 words. "
            ++ nl ++ "    "),
      ((nl ++ "    Documents:" ++ nl ++ "    ") ++ before),
      (after ++ nl ++ "    ").
    rewrite !append_assoc. reflexivity.
Qed.

Lemma prompt_holds_question_and_documents_witness :
  ∃ before between after,
    render ArbitrarySources.prompt_template
      {[ "question" := VStr "Which version of Stackable did the author use?";
         "documents" := VListDocument [web_doc; pdf_doc] ]}
    = before ++ "Query: " ++ "Which version of Stackable did the author use?"
      ++ between ++ "DEFAULT_CA_BUNDLE" ++ after.
Proof.
  apply (prompt_holds_question_and_documents
           "Which version of Stackable did the author use?" [web_doc; pdf_doc] pdf_doc
           ArbitrarySources.prompt_template).
  - left. reflexivity.
  - apply list_elem_of_further, list_elem_of_here.
Defined.
